(** * r6ops-backend: the ownership checks of [src/index.ts]

    A shallow embedding of the Express application of [src/index.ts]: the
    route handlers are functions in a small state-and-exception monad over
    the Supabase tables, the log of the queries issued and the server
    console.  The theorems at the end relate the handlers to the
    authorization rules of the specification. *)

From Stdlib Require Import String List ZArith Bool Lia.
Import ListNotations.
Local Open Scope string_scope.
Local Open Scope Z_scope.
Set Warnings "-register-all".

(** ** JavaScript values reaching the handlers *)

Module Js.

(** A JSON value as [express.json()] leaves it in [req.body].  Numbers are
    the integer literals; every other number a JSON text can denote is
    non-zero or a zero, which is all the handlers look at. *)
Inductive Json : Type :=
| JNull
| JBool (b : bool)
| JNum (n : Z)
| JStr (s : string)
| JArr (items : list Json)
| JObj (fields : list (string * Json)).

(** ToBoolean; [None] is [undefined], the value of a property that is
    absent.  Objects and arrays are truthy even when empty. *)
Definition truthy (v : option Json) : bool :=
  match v with
  | None => false
  | Some JNull => false
  | Some (JBool b) => b
  | Some (JNum n) => negb (n =? 0)
  | Some (JStr s) => match s with EmptyString => false | String _ _ => true end
  | Some (JArr _) => true
  | Some (JObj _) => true
  end.

(** What a [throw] carries: the text [err.stack] prints. *)
Definition JsError := string.

End Js.
Import Js.

(** ** The tables

    The external schema contract:
    [alliances(id, manager_id)], [alliance_members(id, alliance_id)],
    [battle_events(id, alliance_member_id)], [*_stats(user_id, stats,
    created_at)].  The remaining columns of [users], [player_info] and
    [player_resources] are kept as one opaque JSON value. *)

Module Schema.

Record UserRow := { u_id : string; u_columns : Json }.
Record PlayerRow := { p_user_id : string; p_columns : Json }.
Record StatRow := { st_user_id : string; st_stats : Json; st_created_at : string }.
Record AllianceRow := { al_id : string; al_manager_id : string }.
Record MemberRow := { am_id : string; am_alliance_id : string }.
Record EventRow := { be_id : string; be_alliance_member_id : string }.

(** Rows as [select('manager_id')], [select('alliance_id')] and
    [select('stats')] return them: one column. *)
Record ManagerIdCol := { manager_id : string }.
Record AllianceIdCol := { alliance_id : string }.
Record StatsCol := { stats : Json }.

Inductive Table :=
| Users | PlayerInfo | PlayerResources
| MilitaryStats | ResourcesStats | DevelopmentStats
| Alliances | AllianceMembers | BattleEvents.

Definition Table_eqb (a b : Table) : bool :=
  match a, b with
  | Users, Users | PlayerInfo, PlayerInfo | PlayerResources, PlayerResources
  | MilitaryStats, MilitaryStats | ResourcesStats, ResourcesStats
  | DevelopmentStats, DevelopmentStats
  | Alliances, Alliances | AllianceMembers, AllianceMembers
  | BattleEvents, BattleEvents => true
  | _, _ => false
  end.

Record Db := {
  users : list UserRow;
  player_info : list PlayerRow;
  player_resources : list PlayerRow;
  military_stats : list StatRow;
  resources_stats : list StatRow;
  development_stats : list StatRow;
  alliances : list AllianceRow;
  alliance_members : list MemberRow;
  battle_events : list EventRow
}.

(** The three stat kinds share one row shape and differ in the table. *)
Inductive StatKind := Military | Resources | Development.

Definition stat_table (k : StatKind) : Table :=
  match k with
  | Military => MilitaryStats
  | Resources => ResourcesStats
  | Development => DevelopmentStats
  end.

Definition stat_rows (k : StatKind) (d : Db) : list StatRow :=
  match k with
  | Military => military_stats d
  | Resources => resources_stats d
  | Development => development_stats d
  end.

Definition set_stat_rows (k : StatKind) (rows : list StatRow) (d : Db) : Db :=
  match k with
  | Military =>
      {| users := users d; player_info := player_info d;
         player_resources := player_resources d;
         military_stats := rows;
         resources_stats := resources_stats d;
         development_stats := development_stats d;
         alliances := alliances d; alliance_members := alliance_members d;
         battle_events := battle_events d |}
  | Resources =>
      {| users := users d; player_info := player_info d;
         player_resources := player_resources d;
         military_stats := military_stats d;
         resources_stats := rows;
         development_stats := development_stats d;
         alliances := alliances d; alliance_members := alliance_members d;
         battle_events := battle_events d |}
  | Development =>
      {| users := users d; player_info := player_info d;
         player_resources := player_resources d;
         military_stats := military_stats d;
         resources_stats := resources_stats d;
         development_stats := rows;
         alliances := alliances d; alliance_members := alliance_members d;
         battle_events := battle_events d |}
  end.

Definition empty_db : Db :=
  {| users := []; player_info := []; player_resources := [];
     military_stats := []; resources_stats := []; development_stats := [];
     alliances := []; alliance_members := []; battle_events := [] |}.

End Schema.
Import Schema.

(** ** The world a request runs in *)

Module Runtime.

Inductive Op := Select | Upsert.

(** The tables, the queries sent to the store so far (oldest first) and
    what [console.error] has printed. *)
Record World := {
  db : Db;
  queries : list (Table * Op);
  console : list string
}.

(** What the handler does not control: whether the store answers a query
    on a table or signals a failure with some message, and the clock
    [new Date().toISOString()] reads. *)
Record Env := {
  faults : Table -> option string;
  now : string
}.

Inductive Completion (A : Type) :=
| Normal (a : A)
| Throw (e : JsError).
Arguments Normal {A} a.
Arguments Throw {A} e.

Definition M (A : Type) : Type := Env -> World -> Completion A * World.

Definition ret {A} (a : A) : M A := fun _ w => (Normal a, w).

Definition bind {A B} (m : M A) (f : A -> M B) : M B :=
  fun env w =>
    match m env w with
    | (Normal a, w') => f a env w'
    | (Throw e, w') => (Throw e, w')
    end.

Definition throw {A} (e : JsError) : M A := fun _ w => (Throw e, w).

Definition clock : M string := fun env w => (Normal (now env), w).

Definition sent (t : Table) (o : Op) (w : World) : World :=
  {| db := db w; queries := queries w ++ [(t, o)]; console := console w |}.

Definition with_db (d : Db) (w : World) : World :=
  {| db := d; queries := queries w; console := console w |}.

Definition console_error (line : string) (w : World) : World :=
  {| db := db w; queries := queries w; console := console w ++ [line] |}.

End Runtime.
Import Runtime.

Declare Scope handler_scope.
Delimit Scope handler_scope with handler.
Notation "x <- m ;; k" := (bind m (fun x => k))
  (at level 61, m at next level, right associativity) : handler_scope.
Local Open Scope handler_scope.

(** ** The store client

    [@supabase/supabase-js] is a collaborator outside the repository; these
    definitions give the part of its query builder the handlers use.  Every
    query resolves to [{ data, error }] and never rejects. *)

Module Supabase.

Record PostgrestError := { message : string }.

Record QResult (A : Type) := {
  data : option A;
  error : option PostgrestError
}.
Arguments data {A} _.
Arguments error {A} _.

Definition answered {A} (a : A) : QResult A :=
  {| data := Some a; error := None |}.

Definition failed {A} (msg : string) : QResult A :=
  {| data := None; error := Some {| message := msg |} |}.

(** PostgREST's complaint when [.single()] meets zero or several rows. *)
Definition single_row_error : string :=
  "JSON object requested, multiple (or no) rows returned".

(** [from(t).select(cols).eq(column, value)]: the rows of [t] that pass
    the filter, projected on the selected columns. *)
Definition select_eq {R C : Type} (t : Table) (rows : Db -> list R)
    (cols : R -> C) (keep : R -> bool) : M (QResult (list C)) :=
  fun env w =>
    let w' := sent t Select w in
    match faults env t with
    | Some msg => (Normal (failed msg), w')
    | None => (Normal (answered (map cols (filter keep (rows (db w))))), w')
    end.

(** [.single()]: exactly one row, as an object; anything else is an
    error and [data] is [null]. *)
Definition single {C : Type} (q : M (QResult (list C))) : M (QResult C) :=
  r <- q ;;
  match error r with
  | Some e => ret {| data := None; error := Some e |}
  | None =>
      match data r with
      | Some [c] => ret (answered c)
      | _ => ret (failed single_row_error)
      end
  end.

(** Modelled from the spec: the conflict target of [upsert] is the table's
    primary key, which is declared in the database and not in the
    repository; the specification keys a StatRecord by [user_id] ("keyed
    uniquely per (user_id, kind)", one table per kind).  The row whose
    [user_id] equals the new row's is replaced where it stands; when there
    is none the new row is added. *)
Fixpoint upsert_row (row : StatRow) (rows : list StatRow) : list StatRow :=
  match rows with
  | [] => [row]
  | r :: rest =>
      if (st_user_id r =? st_user_id row)%string then row :: rest
      else r :: upsert_row row rest
  end.

(** [from(t).upsert(row).select()]: writes the row and returns it. *)
Definition upsert_select (k : StatKind) (row : StatRow)
  : M (QResult (list StatRow)) :=
  fun env w =>
    let w' := sent (stat_table k) Upsert w in
    match faults env (stat_table k) with
    | Some msg => (Normal (failed msg), w')
    | None =>
        (Normal (answered [row]),
         with_db (set_stat_rows k (upsert_row row (stat_rows k (db w))) (db w)) w')
    end.

End Supabase.
Import Supabase.

(** ** Responses *)

Module Express.

Inductive Payload :=
| PUser (u : UserRow)
| PPlayerRows (l : list PlayerRow)
| PStats (l : list StatsCol)
| PStatRows (l : list StatRow)
| PAlliances (l : list AllianceRow)
| PMembers (l : list MemberRow)
| PEvents (l : list EventRow).

(** The JSON a handler sends: [{ error: msg }], [{ status: 'OK' }], or the
    [data] of a query ([None] is [null]). *)
Inductive Body :=
| ErrorBody (msg : string)
| StatusOK
| DataBody (d : option Payload).

Record Response := { status : Z; body : Body }.

(** [res.status(code).json(b)]; [res.json(b)] is [respond 200 b]. *)
Definition respond (code : Z) (b : Body) : M Response :=
  ret {| status := code; body := b |}.

(** Reading a property of [data]: a [TypeError] when [data] is [null]. *)
Definition property_of {A : Type} (d : option A) (name : string) : M A :=
  match d with
  | Some a => ret a
  | None =>
      throw ("TypeError: Cannot read properties of null (reading '"
             ++ name ++ "')")
  end.

Definition Handler : Type := Env -> World -> Response * World.

(** A route body runs inside [try { ... } catch (err) { next(err) }], and
    [next(err)] ends in the error-handling middleware at the bottom of the
    file: [console.error(err.stack)] and a 500 with a fixed message. *)
Definition route (body : M Response) : Handler :=
  fun env w =>
    match body env w with
    | (Normal r, w') => (r, w')
    | (Throw err, w') =>
        ({| status := 500; body := ErrorBody "Something went wrong!" |},
         console_error err w')
    end.

End Express.
Import Express.

(** ** The routes of [src/index.ts]

    Each handler takes [userId], the principal [ClerkExpressRequireAuth]
    left in [req.auth], and what it reads from [req.params] and
    [req.body]. *)

Module App.

Definition forbidden_message : string :=
  "Forbidden: You are not the manager of this alliance".

(** [if (error) return res.status(500).json({ error: error.message });
     res.json(data);] *)
Definition send_result {A : Type} (wrap : A -> Payload) (r : QResult A)
  : M Response :=
  match error r with
  | Some e => respond 500 (ErrorBody (message e))
  | None => respond 200 (DataBody (option_map wrap (data r)))
  end.

(** [allianceError || alliance.manager_id !== userId] *)
Definition not_manager (r : QResult ManagerIdCol) (userId : string) : M bool :=
  match error r with
  | Some _ => ret true
  | None =>
      alliance <- property_of (data r) "manager_id" ;;
      ret (negb (manager_id alliance =? userId)%string)
  end.

(** GET /health *)
Definition get_health : Handler :=
  route (respond 200 StatusOK).

(** GET /api/user *)
Definition get_user (userId : string) : Handler :=
  route (
    r <- single (select_eq Users users (fun u => u)
                   (fun u => (u_id u =? userId)%string)) ;;
    send_result PUser r).

(** GET /api/player-info *)
Definition get_player_info (userId : string) : Handler :=
  route (
    r <- select_eq PlayerInfo player_info (fun p => p)
           (fun p => (p_user_id p =? userId)%string) ;;
    send_result PPlayerRows r).

(** GET /api/player-resources *)
Definition get_player_resources (userId : string) : Handler :=
  route (
    r <- select_eq PlayerResources player_resources (fun p => p)
           (fun p => (p_user_id p =? userId)%string) ;;
    send_result PPlayerRows r).

(** GET /api/military-stats, /api/resources-stats, /api/development-stats:
    the three bodies differ in the table name only. *)
Definition get_stats (k : StatKind) (userId : string) : Handler :=
  route (
    r <- select_eq (stat_table k) (stat_rows k)
           (fun s => {| stats := st_stats s |})
           (fun s => (st_user_id s =? userId)%string) ;;
    send_result PStats r).

(** POST /api/military-stats, /api/resources-stats, /api/development-stats;
    [stats] is [req.body.stats].  The inner [None] branch is the value
    [undefined], which [!stats] has already turned away. *)
Definition post_stats (k : StatKind) (userId : string) (stats : option Json)
  : Handler :=
  route (
    if negb (truthy stats) then respond 400 (ErrorBody "Stats required")
    else
      match stats with
      | None => respond 400 (ErrorBody "Stats required")
      | Some payload =>
          created_at <- clock ;;
          r <- upsert_select k {| st_user_id := userId; st_stats := payload;
                                  st_created_at := created_at |} ;;
          send_result PStatRows r
      end).

Definition get_military_stats := get_stats Military.
Definition post_military_stats := post_stats Military.
Definition get_resources_stats := get_stats Resources.
Definition post_resources_stats := post_stats Resources.
Definition get_development_stats := get_stats Development.
Definition post_development_stats := post_stats Development.

(** GET /api/alliances *)
Definition get_alliances (userId : string) : Handler :=
  route (
    r <- select_eq Alliances alliances (fun a => a)
           (fun a => (al_manager_id a =? userId)%string) ;;
    send_result PAlliances r).

(** GET /api/alliance-members/:allianceId *)
Definition get_alliance_members (userId allianceId : string) : Handler :=
  route (
    a <- single (select_eq Alliances alliances
                   (fun a => {| manager_id := al_manager_id a |})
                   (fun a => (al_id a =? allianceId)%string)) ;;
    denied <- not_manager a userId ;;
    if denied : bool then respond 403 (ErrorBody forbidden_message)
    else
      r <- select_eq AllianceMembers alliance_members (fun m => m)
             (fun m => (am_alliance_id m =? allianceId)%string) ;;
      send_result PMembers r).

(** GET /api/battle-events/:allianceMemberId *)
Definition get_battle_events (userId allianceMemberId : string) : Handler :=
  route (
    m <- single (select_eq AllianceMembers alliance_members
                   (fun m => {| alliance_id := am_alliance_id m |})
                   (fun m => (am_id m =? allianceMemberId)%string)) ;;
    match error m with
    | Some memberError => respond 500 (ErrorBody (message memberError))
    | None =>
        member <- property_of (data m) "alliance_id" ;;
        a <- single (select_eq Alliances alliances
                       (fun a => {| manager_id := al_manager_id a |})
                       (fun a => (al_id a =? alliance_id member)%string)) ;;
        denied <- not_manager a userId ;;
        if denied : bool then respond 403 (ErrorBody forbidden_message)
        else
          r <- select_eq BattleEvents battle_events (fun e => e)
                 (fun e => (be_alliance_member_id e =? allianceMemberId)%string) ;;
          send_result PEvents r
    end).

(** An authenticated request, by route. *)
Inductive Request :=
| GetHealth
| GetUser (userId : string)
| GetPlayerInfo (userId : string)
| GetPlayerResources (userId : string)
| GetStats (k : StatKind) (userId : string)
| PostStats (k : StatKind) (userId : string) (stats : option Json)
| GetAlliances (userId : string)
| GetAllianceMembers (userId allianceId : string)
| GetBattleEvents (userId allianceMemberId : string).

Definition handle (req : Request) : Handler :=
  match req with
  | GetHealth => get_health
  | GetUser u => get_user u
  | GetPlayerInfo u => get_player_info u
  | GetPlayerResources u => get_player_resources u
  | GetStats k u => get_stats k u
  | PostStats k u s => post_stats k u s
  | GetAlliances u => get_alliances u
  | GetAllianceMembers u a => get_alliance_members u a
  | GetBattleEvents u m => get_battle_events u m
  end.

End App.
Import App.

(** ** Reading a response as a decision

    The failure classes of the specification and the status code that
    carries each one. *)

Inductive Failure := NotFound | Forbidden | InvalidPayload | StorageError.

Inductive Decision := Allow | Deny (reason : Failure).

Definition decision (r : Response) : Decision :=
  if status r =? 200 then Allow
  else if status r =? 400 then Deny InvalidPayload
  else if status r =? 403 then Deny Forbidden
  else if status r =? 404 then Deny NotFound
  else Deny StorageError.

(** The queries a handler added to the log. *)
Definition issued (before after : World) : list (Table * Op) :=
  skipn (length (queries before)) (queries after).

Definition no_faults : Table -> option string := fun _ => None.

(** The requested key names exactly this row of the table. *)
Definition only_row {R : Type} (key : R -> string) (k : string)
    (rows : list R) (r : R) : Prop :=
  filter (fun x => (key x =? k)%string) rows = [r].

(** No row of the table has the requested key. *)
Definition no_row {R : Type} (key : R -> string) (k : string)
    (rows : list R) : Prop :=
  filter (fun x => (key x =? k)%string) rows = [].

(** What the ownership lookup of the two nested routes comes to: the store
    answers, the alliance id names one row, and that row's [manager_id] is
    the caller. *)
Definition is_manager (env : Env) (d : Db) (userId allianceId : string) : bool :=
  match faults env Alliances with
  | Some _ => false
  | None =>
      match filter (fun a => (al_id a =? allianceId)%string) (alliances d) with
      | [a] => (al_manager_id a =? userId)%string
      | _ => false
      end
  end.

Definition forbidden : Response :=
  {| status := 403; body := ErrorBody forbidden_message |}.

Definition storage_error (msg : string) : Response :=
  {| status := 500; body := ErrorBody msg |}.

Definition ok (p : Payload) : Response :=
  {| status := 200; body := DataBody (Some p) |}.

(** What [send_result] makes of a filter query on table [t]. *)
Definition listing (env : Env) (t : Table) (p : Payload) : Response :=
  match faults env t with
  | Some msg => storage_error msg
  | None => ok p
  end.

Definition invalid_payload : Response :=
  {| status := 400; body := ErrorBody "Stats required" |}.

Definition generic_message : string := "Something went wrong!".

(** The row a stat upsert writes. *)
Definition stat_row (userId : string) (payload : Json) (created_at : string)
  : StatRow :=
  {| st_user_id := userId; st_stats := payload; st_created_at := created_at |}.

Definition owned_by (userId : string) (s : StatRow) : bool :=
  (st_user_id s =? userId)%string.

(** [user_id] is the primary key of a stat table. *)
Definition primary_key (rows : list StatRow) : Prop :=
  NoDup (map st_user_id rows).

(** ** The hops of an ownership chain

    The alliance-members route walks one hop (the Alliance named in the
    path); the battle-events route walks two (the AllianceMember named in
    the path, then its Alliance). *)

Inductive Hop := MemberHop | AllianceHop.

(** The request walks a chain in which the row of this hop is missing. *)
Inductive missing_hop (env : Env) (w : World) : Request -> Hop -> Prop :=
| missing_alliance (userId allianceId : string) :
    no_row al_id allianceId (alliances (db w)) ->
    missing_hop env w (GetAllianceMembers userId allianceId) AllianceHop
| missing_member (userId allianceMemberId : string) :
    no_row am_id allianceMemberId (alliance_members (db w)) ->
    missing_hop env w (GetBattleEvents userId allianceMemberId) MemberHop
| missing_members_alliance (userId allianceMemberId : string) (m : MemberRow) :
    faults env AllianceMembers = None ->
    only_row am_id allianceMemberId (alliance_members (db w)) m ->
    no_row al_id (am_alliance_id m) (alliances (db w)) ->
    missing_hop env w (GetBattleEvents userId allianceMemberId) AllianceHop.

(** How the handlers report a missing row, by hop. *)
Definition reported_as (h : Hop) : Failure :=
  match h with
  | AllianceHop => Forbidden
  | MemberHop => StorageError
  end.

(** The member lookup of the battle-events route resolves, and the caller
    manages the alliance it resolves to. *)
Definition may_read_events (env : Env) (d : Db) (userId allianceMemberId : string)
  : bool :=
  match faults env AllianceMembers with
  | Some _ => false
  | None =>
      match filter (fun m => (am_id m =? allianceMemberId)%string)
              (alliance_members d) with
      | [m] => is_manager env d userId (am_alliance_id m)
      | _ => false
      end
  end.

(** The composition the specification compares the two-hop check with,
    done by hand: resolve the event's [alliance_member_id] to its
    AllianceMember row, then put the one-hop question of the
    alliance-members route for that row's alliance.  A missing
    intermediate row is [NotFound]. *)
Definition composed_one_hop_checks (env : Env) (w : World) (userId : string)
    (e : EventRow) : Decision :=
  match filter (fun m => (am_id m =? be_alliance_member_id e)%string)
          (alliance_members (db w)) with
  | [m] => decision (fst (get_alliance_members userId (am_alliance_id m) env w))
  | _ => Deny NotFound
  end.

(** ** Payloads

    An empty or absent payload in the words of the specification: no
    [stats] at all, [null], or a string, array or object with nothing in
    it. *)
Definition empty_payload (s : option Json) : bool :=
  match s with
  | None => true
  | Some JNull => true
  | Some (JStr EmptyString) => true
  | Some (JArr []) => true
  | Some (JObj []) => true
  | _ => false
  end.

(** The values [!stats] turns away. *)
Inductive falsy_payload : option Json -> Prop :=
| falsy_undefined : falsy_payload None
| falsy_null : falsy_payload (Some JNull)
| falsy_false : falsy_payload (Some (JBool false))
| falsy_zero : falsy_payload (Some (JNum 0))
| falsy_empty_string : falsy_payload (Some (JStr "")).

(** ** The scenario of the specification

    [U1] manages alliance [A1]; [A1] has member [M1]; [M1] has battle event
    [E1].  [M2] is a member whose alliance [A0] has been deleted. *)

Definition scenario_db : Db :=
  {| users := [ {| u_id := "U1"; u_columns := JObj [] |} ];
     player_info := []; player_resources := [];
     military_stats := []; resources_stats := []; development_stats := [];
     alliances := [ {| al_id := "A1"; al_manager_id := "U1" |} ];
     alliance_members := [ {| am_id := "M1"; am_alliance_id := "A1" |};
                           {| am_id := "M2"; am_alliance_id := "A0" |} ];
     battle_events := [ {| be_id := "E1"; be_alliance_member_id := "M1" |} ] |}.

Definition scenario : World :=
  {| db := scenario_db; queries := []; console := [] |}.

(** The same server with every table empty. *)
Definition deserted : World :=
  {| db := empty_db; queries := []; console := [] |}.

Definition calm : Env := {| faults := no_faults; now := "2024-01-01T00:00:00.000Z" |}.

Definition later : Env := {| faults := no_faults; now := "2024-01-02T00:00:00.000Z" |}.

(** The store refuses queries on [users] with a message of its own. *)
Definition users_down : Env :=
  {| faults := fun t => if Table_eqb t Users
                        then Some "connection to 10.0.3.7:5432 refused"
                        else None;
     now := "2024-01-01T00:00:00.000Z" |}.

(** ** Authentication in front of the routes

    Every [/api] route is registered as [ClerkExpressRequireAuth(),
    handleClerkAuthError, handler].  Clerk's middleware is a collaborator
    outside the repository: it either leaves the principal in [req.auth]
    and calls [next()], or calls [next(err)]. *)

Module Pipeline.

(** The error object Clerk passes on: its [status] property ([None] is
    [undefined]) and its [stack]. *)
Record AuthError := { err_status : option Json; err_stack : JsError }.

Inductive Auth :=
| SignedIn (userId : string)
| Refused (err : AuthError).

Definition unauthorized (code : Z) : Response :=
  {| status := code; body := ErrorBody "Unauthorized" |}.

(** The error-handling middleware at the bottom of the file:
    [console.error(err.stack)] and a 500 with a fixed message. *)
Definition error_middleware (err : AuthError) : Handler :=
  fun _ w =>
    ({| status := 500; body := ErrorBody "Something went wrong!" |},
     console_error (err_stack err) w).

(** [handleClerkAuthError]: [err.status === 401 || err.status === 403]
    answers with that status; anything else goes to [next(err)]. *)
Definition handleClerkAuthError (err : AuthError) (next : AuthError -> Handler)
  : Handler :=
  match err_status err with
  | Some (JNum code) =>
      if (code =? 401) || (code =? 403)
      then fun _ w => (unauthorized code, w)
      else next err
  | _ => next err
  end.

(** A route and what it reads from [req.params] and [req.body]. *)
Inductive Route :=
| HealthRoute
| UserRoute
| PlayerInfoRoute
| PlayerResourcesRoute
| StatsRoute (k : StatKind)
| StatsUpdateRoute (k : StatKind) (stats : option Json)
| AlliancesRoute
| AllianceMembersRoute (allianceId : string)
| BattleEventsRoute (allianceMemberId : string).

Definition request_of (r : Route) (userId : string) : Request :=
  match r with
  | HealthRoute => GetHealth
  | UserRoute => GetUser userId
  | PlayerInfoRoute => GetPlayerInfo userId
  | PlayerResourcesRoute => GetPlayerResources userId
  | StatsRoute k => GetStats k userId
  | StatsUpdateRoute k s => PostStats k userId s
  | AlliancesRoute => GetAlliances userId
  | AllianceMembersRoute a => GetAllianceMembers userId a
  | BattleEventsRoute m => GetBattleEvents userId m
  end.

(** The application: [/health] is registered without the two Clerk
    middlewares; on the other routes an error-handling middleware is
    skipped when no error is pending, so a signed-in request goes straight
    to its handler. *)
Definition app (auth : Auth) (r : Route) : Handler :=
  match r with
  | HealthRoute => get_health
  | _ =>
      match auth with
      | SignedIn userId => handle (request_of r userId)
      | Refused err => handleClerkAuthError err error_middleware
      end
  end.

End Pipeline.
Import Pipeline.

(** ** Whose rows a response carries *)

(** The principal a request runs for. *)
Definition principal_of (req : Request) : option string :=
  match req with
  | GetHealth => None
  | GetUser u | GetPlayerInfo u | GetPlayerResources u | GetStats _ u
  | PostStats _ u _ | GetAlliances u | GetAllianceMembers u _
  | GetBattleEvents u _ => Some u
  end.

(** The owner column of each row of a payload, for the tables that have
    one: [users.id], [*.user_id], [alliances.manager_id]. *)
Definition direct_owners (p : Payload) : list string :=
  match p with
  | PUser u => [u_id u]
  | PPlayerRows l => map p_user_id l
  | PStatRows l => map st_user_id l
  | PAlliances l => map al_manager_id l
  | PStats _ => []
  | PMembers _ => []
  | PEvents _ => []
  end.

(** The two routes that walk an ownership chain. *)
Definition is_nested (req : Request) : bool :=
  match req with
  | GetAllianceMembers _ _ => true
  | GetBattleEvents _ _ => true
  | _ => false
  end.

Definition is_update (req : Request) : bool :=
  match req with
  | PostStats _ _ _ => true
  | _ => false
  end.

(** A refusal that carries the status 401. *)
Definition unauthenticated : AuthError :=
  {| err_status := Some (JNum 401); err_stack := "Error: Unauthenticated" |}.

(** An error that carries no [status]. *)
Definition statusless : AuthError :=
  {| err_status := None; err_stack := "Error: Unauthenticated" |}.

(** The scenario after [U1] has stored military stats. *)
Definition with_stats : World :=
  {| db := set_stat_rows Military
             [ {| st_user_id := "U1"; st_stats := JObj [("attack", JNum 10)];
                  st_created_at := "2023-12-31T00:00:00.000Z" |} ]
             scenario_db;
     queries := []; console := [] |}.

(** * Running the handlers *)

Section Runs.

Variables (env : Env) (w : World).

Lemma single_select_eq_run {R C : Type} (t : Table) (rows : Db -> list R)
    (cols : R -> C) (keep : R -> bool) :
  single (select_eq t rows cols keep) env w =
  (Normal (match faults env t with
           | Some msg => failed msg
           | None =>
               match filter keep (rows (db w)) with
               | [r] => answered (cols r)
               | _ => failed single_row_error
               end
           end),
   sent t Select w).
Proof.
  unfold single, select_eq, bind.
  destruct (faults env t) as [msg|]; [reflexivity|].
  cbn. destruct (filter keep (rows (db w))) as [|r [|r' rest]]; reflexivity.
Qed.

Lemma get_alliance_members_run (userId allianceId : string) :
  get_alliance_members userId allianceId env w =
  if is_manager env (db w) userId allianceId then
    (listing env AllianceMembers
       (PMembers (filter (fun m => (am_alliance_id m =? allianceId)%string)
                    (alliance_members (db w)))),
     sent AllianceMembers Select (sent Alliances Select w))
  else (forbidden, sent Alliances Select w).
Proof.
  unfold get_alliance_members, route, is_manager, listing.
  unfold bind at 1. rewrite single_select_eq_run.
  destruct (faults env Alliances) as [msg|] eqn:Hf; [reflexivity|].
  destruct (filter _ (alliances (db w))) as [|a [|a' rest]]; try reflexivity.
  cbn. destruct (al_manager_id a =? userId)%string; cbn; [|reflexivity].
  unfold bind, select_eq. cbn.
  destruct (faults env AllianceMembers); cbn; rewrite ?map_id; reflexivity.
Qed.

Lemma get_battle_events_run (userId allianceMemberId : string) :
  get_battle_events userId allianceMemberId env w =
  match faults env AllianceMembers with
  | Some msg => (storage_error msg, sent AllianceMembers Select w)
  | None =>
      match filter (fun m => (am_id m =? allianceMemberId)%string)
              (alliance_members (db w)) with
      | [m] =>
          if is_manager env (db w) userId (am_alliance_id m) then
            (listing env BattleEvents
               (PEvents (filter
                  (fun e => (be_alliance_member_id e =? allianceMemberId)%string)
                  (battle_events (db w)))),
             sent BattleEvents Select
               (sent Alliances Select (sent AllianceMembers Select w)))
          else (forbidden, sent Alliances Select (sent AllianceMembers Select w))
      | _ => (storage_error single_row_error, sent AllianceMembers Select w)
      end
  end.
Proof.
  unfold get_battle_events, route, is_manager, listing.
  unfold bind at 1. rewrite single_select_eq_run.
  destruct (faults env AllianceMembers) as [msg|] eqn:Hm; [reflexivity|].
  destruct (filter _ (alliance_members (db w))) as [|m [|m' rest]];
    try reflexivity.
  cbn. unfold bind at 1. cbn.
  unfold bind at 1.
  destruct (faults env Alliances) as [msg|] eqn:Ha.
  - unfold single, select_eq, bind. cbn. rewrite Ha. reflexivity.
  - unfold single, select_eq, bind. cbn. rewrite Ha. cbn.
    destruct (filter _ (alliances (db w))) as [|a [|a' rest]]; try reflexivity.
    cbn. destruct (al_manager_id a =? userId)%string; cbn; [|reflexivity].
    destruct (faults env BattleEvents); cbn; rewrite ?map_id; reflexivity.
Qed.

End Runs.

Section StatRuns.

Variables (env : Env) (w : World) (k : StatKind) (userId : string).

Lemma get_stats_run :
  get_stats k userId env w =
  (listing env (stat_table k)
     (PStats (map (fun s => {| stats := st_stats s |})
                (filter (owned_by userId) (stat_rows k (db w))))),
   sent (stat_table k) Select w).
Proof.
  unfold get_stats, route, bind, select_eq, listing, owned_by.
  destruct (faults env (stat_table k)); reflexivity.
Qed.

Lemma post_stats_falsy (s : option Json) :
  truthy s = false -> post_stats k userId s env w = (invalid_payload, w).
Proof.
  intros H. unfold post_stats, route. rewrite H. reflexivity.
Qed.

Lemma post_stats_truthy (payload : Json) :
  truthy (Some payload) = true ->
  post_stats k userId (Some payload) env w =
  match faults env (stat_table k) with
  | Some msg => (storage_error msg, sent (stat_table k) Upsert w)
  | None =>
      (ok (PStatRows [stat_row userId payload (now env)]),
       with_db (set_stat_rows k
                  (upsert_row (stat_row userId payload (now env))
                     (stat_rows k (db w)))
                  (db w))
         (sent (stat_table k) Upsert w))
  end.
Proof.
  intros H. unfold post_stats, route. rewrite H. cbn.
  unfold bind, upsert_select, clock. cbn.
  destruct (faults env (stat_table k)); reflexivity.
Qed.

End StatRuns.

(** * Tables under upsert *)

Lemma truthy_some (s : option Json) :
  truthy s = true -> exists payload, s = Some payload.
Proof.
  destruct s as [payload|]; [eauto | discriminate].
Qed.

Lemma falsy_payload_iff (s : option Json) :
  falsy_payload s <-> truthy s = false.
Proof.
  split.
  - intros H. destruct H; reflexivity.
  - destruct s as [[| [|] | n | [|c s] | items | fields]|]; cbn;
      try discriminate; try constructor.
    destruct (Z.eqb_spec n 0) as [->|]; [constructor | discriminate].
Qed.

Lemma stat_rows_set (k : StatKind) (rows : list StatRow) (d : Db) :
  stat_rows k (set_stat_rows k rows d) = rows.
Proof. destruct k; reflexivity. Qed.

Lemma stat_rows_set_other (k k' : StatKind) (rows : list StatRow) (d : Db) :
  k' <> k -> stat_rows k' (set_stat_rows k rows d) = stat_rows k' d.
Proof. destruct k, k'; intros H; try reflexivity; congruence. Qed.

Lemma upsert_row_keys (row : StatRow) (rows : list StatRow) :
  In (st_user_id row) (map st_user_id rows) ->
  map st_user_id (upsert_row row rows) = map st_user_id rows.
Proof.
  induction rows as [|r rest IH]; cbn; [tauto|].
  intros Hin. destruct (String.eqb_spec (st_user_id r) (st_user_id row)) as [E|N].
  - cbn. now rewrite E.
  - cbn. f_equal. apply IH. destruct Hin; [congruence | assumption].
Qed.

Lemma upsert_row_new_key (row : StatRow) (rows : list StatRow) :
  ~ In (st_user_id row) (map st_user_id rows) ->
  upsert_row row rows = (rows ++ [row])%list.
Proof.
  induction rows as [|r rest IH]; cbn; [reflexivity|].
  intros Hnin. destruct (String.eqb_spec (st_user_id r) (st_user_id row)) as [E|N].
  - exfalso. apply Hnin. now left.
  - f_equal. apply IH. tauto.
Qed.

Lemma upsert_row_primary_key (row : StatRow) (rows : list StatRow) :
  primary_key rows -> primary_key (upsert_row row rows).
Proof.
  unfold primary_key. intros Hnd.
  destruct (in_dec string_dec (st_user_id row) (map st_user_id rows)) as [Hin|Hnin].
  - now rewrite upsert_row_keys.
  - rewrite upsert_row_new_key by assumption.
    rewrite map_app. cbn.
    apply NoDup_app; [assumption | repeat constructor; intros [] |].
    intros x Hx [<-|[]]. contradiction.
Qed.

Lemma upsert_row_others (row : StatRow) (rows : list StatRow) (u : string) :
  st_user_id row <> u ->
  filter (owned_by u) (upsert_row row rows) = filter (owned_by u) rows.
Proof.
  intros Hne. unfold owned_by.
  induction rows as [|r rest IH]; cbn.
  - destruct (String.eqb_spec (st_user_id row) u); [contradiction | reflexivity].
  - destruct (String.eqb_spec (st_user_id r) (st_user_id row)) as [E|N]; cbn.
    + destruct (String.eqb_spec (st_user_id row) u); [contradiction|].
      destruct (String.eqb_spec (st_user_id r) u); [congruence | reflexivity].
    + now rewrite IH.
Qed.

Lemma filter_absent_key (rows : list StatRow) (u : string) :
  ~ In u (map st_user_id rows) -> filter (owned_by u) rows = [].
Proof.
  unfold owned_by. induction rows as [|r rest IH]; cbn; [reflexivity|].
  intros Hnin. destruct (String.eqb_spec (st_user_id r) u) as [E|N].
  - exfalso. apply Hnin. now left.
  - apply IH. tauto.
Qed.

Lemma upsert_row_own (row : StatRow) (rows : list StatRow) :
  primary_key rows ->
  filter (owned_by (st_user_id row)) (upsert_row row rows) = [row].
Proof.
  unfold primary_key.
  induction rows as [|r rest IH]; cbn; intros Hnd.
  - unfold owned_by. now rewrite String.eqb_refl.
  - inversion Hnd as [|? ? Hnin Hrest]; subst.
    destruct (String.eqb_spec (st_user_id r) (st_user_id row)) as [E|N]; cbn.
    + unfold owned_by at 1. rewrite String.eqb_refl. f_equal.
      apply filter_absent_key. now rewrite <- E.
    + unfold owned_by at 1.
      destruct (String.eqb_spec (st_user_id r) (st_user_id row)); [contradiction|].
      now apply IH.
Qed.

(** * Ownership chains *)

Lemma is_manager_no_row (env : Env) (d : Db) (userId allianceId : string) :
  no_row al_id allianceId (alliances d) ->
  is_manager env d userId allianceId = false.
Proof.
  unfold no_row, is_manager. intros ->. now destruct (faults env Alliances).
Qed.

Lemma is_manager_only_row (env : Env) (d : Db) (userId allianceId : string)
    (a : AllianceRow) :
  faults env Alliances = None ->
  only_row al_id allianceId (alliances d) a ->
  is_manager env d userId allianceId = (al_manager_id a =? userId)%string.
Proof.
  unfold only_row, is_manager. now intros -> ->.
Qed.

Lemma is_manager_foreign (env : Env) (d : Db) (userId allianceId : string)
    (a : AllianceRow) :
  only_row al_id allianceId (alliances d) a ->
  al_manager_id a <> userId ->
  is_manager env d userId allianceId = false.
Proof.
  unfold only_row, is_manager. intros -> Hne.
  destruct (faults env Alliances); [reflexivity|].
  now apply String.eqb_neq.
Qed.

(** C1, as the specification has it, fails in the scenario: member [M2]
    points at the deleted alliance [A0], and both routes answer the
    manager-less chain with 403 Forbidden, not with NotFound. *)
Lemma dangling_alliance_is_forbidden :
  no_row al_id "A0" (alliances (db scenario)) /\
  only_row am_id "M2" (alliance_members (db scenario))
    {| am_id := "M2"; am_alliance_id := "A0" |} /\
  decision (fst (get_alliance_members "U1" "A0" calm scenario)) = Deny Forbidden /\
  decision (fst (get_battle_events "U1" "M2" calm scenario)) = Deny Forbidden /\
  decision (fst (get_alliance_members "U1" "A0" calm scenario)) <> Deny NotFound.
Proof.
  repeat split; try reflexivity. discriminate.
Qed.

(** C1 (amended): when a hop of the chain names a missing row the request is
    turned away without an exception and without touching the tables or the
    console: as Forbidden, with the fixed 403 body, when the Alliance row is
    the missing one (either route), and as a storage failure (500, body an
    error message) when the AllianceMember row of the battle-events route
    is the missing one.  It is never answered as NotFound and never
    allowed. *)
Theorem missing_hop_is_rejected (env : Env) (w : World) (req : Request) (h : Hop) :
  missing_hop env w req h ->
  decision (fst (handle req env w)) = Deny (reported_as h) /\
  (h = AllianceHop -> fst (handle req env w) = forbidden) /\
  (exists msg, body (fst (handle req env w)) = ErrorBody msg) /\
  db (snd (handle req env w)) = db w /\
  console (snd (handle req env w)) = console w.
Proof.
  intros Hm. destruct Hm as [u a Ha | u mid Hmem | u mid m Hf Hmem Ha]; cbn [handle].
  - rewrite get_alliance_members_run, is_manager_no_row by assumption.
    cbn. repeat split; eauto.
  - rewrite get_battle_events_run. unfold no_row in Hmem. rewrite Hmem.
    destruct (faults env AllianceMembers) as [msg|]; cbn;
      (repeat split; eauto; discriminate).
  - rewrite get_battle_events_run, Hf. unfold only_row in Hmem. rewrite Hmem.
    rewrite is_manager_no_row by assumption.
    cbn. repeat split; eauto.
Qed.

Lemma missing_hop_is_rejected_on_scenario :
  decision (fst (handle (GetBattleEvents "U1" "M2") calm scenario))
  = Deny Forbidden /\
  decision (fst (handle (GetBattleEvents "U1" "M9") calm scenario))
  = Deny StorageError.
Proof.
  split.
  - apply (missing_hop_is_rejected calm scenario (GetBattleEvents "U1" "M2")
             AllianceHop).
    apply (missing_members_alliance calm scenario "U1" "M2"
             {| am_id := "M2"; am_alliance_id := "A0" |}); reflexivity.
  - apply (missing_hop_is_rejected calm scenario (GetBattleEvents "U1" "M9")
             MemberHop).
    apply missing_member. reflexivity.
Defined.

(** C2: when alliance [allianceId] exists with manager [P] and the store
    answers, [P] is sent every member row of that alliance (so any given
    member [m] of it), while every other principal [Q] is sent the 403
    Forbidden body, which carries no row, and the members table is not
    even queried for [Q]. *)
Theorem manager_reads_members_others_forbidden
    (env : Env) (w : World) (P allianceId : string) (a : AllianceRow)
    (m : MemberRow) :
  faults env Alliances = None ->
  faults env AllianceMembers = None ->
  only_row al_id allianceId (alliances (db w)) a ->
  al_manager_id a = P ->
  In m (alliance_members (db w)) ->
  am_alliance_id m = allianceId ->
  (exists rows,
      fst (get_alliance_members P allianceId env w) = ok (PMembers rows) /\
      decision (fst (get_alliance_members P allianceId env w)) = Allow /\
      In m rows /\
      forall m', In m' rows <->
                 In m' (alliance_members (db w)) /\ am_alliance_id m' = allianceId) /\
  forall Q, Q <> P ->
    fst (get_alliance_members Q allianceId env w) = forbidden /\
    decision (fst (get_alliance_members Q allianceId env w)) = Deny Forbidden /\
    issued w (snd (get_alliance_members Q allianceId env w)) = [(Alliances, Select)].
Proof.
  intros Hfa Hfm Hrow HP Hin Hm. split.
  - exists (filter (fun x => (am_alliance_id x =? allianceId)%string)
              (alliance_members (db w))).
    rewrite get_alliance_members_run.
    rewrite (is_manager_only_row env (db w) P allianceId a Hfa Hrow).
    rewrite HP, String.eqb_refl. unfold listing. rewrite Hfm. cbn.
    split; [reflexivity|]. split; [reflexivity|]. split.
    + apply filter_In. split; [assumption|]. now apply String.eqb_eq.
    + intros m'. rewrite filter_In, String.eqb_eq. reflexivity.
  - intros Q HQ. rewrite get_alliance_members_run.
    rewrite (is_manager_foreign env (db w) Q allianceId a Hrow) by congruence.
    cbn. repeat split.
    unfold issued. cbn. rewrite skipn_app, skipn_all, Nat.sub_diag. reflexivity.
Qed.

Lemma manager_reads_members_others_forbidden_on_scenario :
  fst (get_alliance_members "U2" "A1" calm scenario) = forbidden.
Proof.
  apply (manager_reads_members_others_forbidden calm scenario "U1" "A1"
           {| al_id := "A1"; al_manager_id := "U1" |}
           {| am_id := "M1"; am_alliance_id := "A1" |});
    try reflexivity.
  - left. reflexivity.
  - discriminate.
Defined.

(** C3: for a battle event whose [alliance_member_id] names one
    AllianceMember row, and a store that answers on the member and event
    tables, the battle-events route decides as the hand-made composition
    does: resolve the member, then ask the alliance-members route about
    the member's alliance.  Both allow exactly the manager of that
    alliance. *)
Theorem two_hop_check_is_composition
    (env : Env) (w : World) (userId : string) (e : EventRow) (m : MemberRow) :
  In e (battle_events (db w)) ->
  only_row am_id (be_alliance_member_id e) (alliance_members (db w)) m ->
  faults env AllianceMembers = None ->
  faults env BattleEvents = None ->
  decision (fst (get_battle_events userId (be_alliance_member_id e) env w))
  = composed_one_hop_checks env w userId e /\
  (decision (fst (get_battle_events userId (be_alliance_member_id e) env w))
   = if is_manager env (db w) userId (am_alliance_id m)
     then Allow else Deny Forbidden).
Proof.
  intros _ Hrow Hfm Hfe. unfold composed_one_hop_checks.
  unfold only_row in Hrow. rewrite Hrow.
  rewrite get_battle_events_run, get_alliance_members_run, Hfm, Hrow.
  unfold listing. rewrite Hfm, Hfe.
  destruct (is_manager env (db w) userId (am_alliance_id m)); split; reflexivity.
Qed.

Lemma two_hop_check_is_composition_on_scenario :
  decision (fst (get_battle_events "U1" "M1" calm scenario))
  = composed_one_hop_checks calm scenario "U1"
      {| be_id := "E1"; be_alliance_member_id := "M1" |} /\
  decision (fst (get_battle_events "U2" "M1" calm scenario))
  = composed_one_hop_checks calm scenario "U2"
      {| be_id := "E1"; be_alliance_member_id := "M1" |}.
Proof.
  split.
  - apply (two_hop_check_is_composition calm scenario "U1"
             {| be_id := "E1"; be_alliance_member_id := "M1" |}
             {| am_id := "M1"; am_alliance_id := "A1" |});
      try reflexivity.
    left. reflexivity.
  - apply (two_hop_check_is_composition calm scenario "U2"
             {| be_id := "E1"; be_alliance_member_id := "M1" |}
             {| am_id := "M1"; am_alliance_id := "A1" |});
      try reflexivity.
    left. reflexivity.
Defined.

Lemma issued_app (w : World) (qs : list (Table * Op)) (w' : World) :
  queries w' = (queries w ++ qs)%list -> issued w w' = qs.
Proof.
  unfold issued. intros ->.
  rewrite skipn_app, skipn_all, Nat.sub_diag. reflexivity.
Qed.

(** C8: the queries a nested route sends, in order.  The alliance-members
    route sends the ownership lookup on [alliances] first and the read of
    [alliance_members] after it, and only when the lookup made the caller
    the manager; otherwise the lookup is the only query and the answer is
    403.  The battle-events route sends the member lookup, then the
    alliance lookup, then the read of [battle_events], and that read only
    when both lookups let the caller through; a request turned away at
    either lookup never reads [battle_events]. *)
Theorem check_precedes_fetch (env : Env) (w : World) (userId id : string) :
  (if is_manager env (db w) userId id
   then issued w (snd (get_alliance_members userId id env w))
        = [(Alliances, Select); (AllianceMembers, Select)]
   else issued w (snd (get_alliance_members userId id env w))
        = [(Alliances, Select)] /\
        fst (get_alliance_members userId id env w) = forbidden) /\
  (if may_read_events env (db w) userId id
   then issued w (snd (get_battle_events userId id env w))
        = [(AllianceMembers, Select); (Alliances, Select); (BattleEvents, Select)]
   else ~ In (BattleEvents, Select)
          (issued w (snd (get_battle_events userId id env w))) /\
        decision (fst (get_battle_events userId id env w)) <> Allow /\
        (decision (fst (get_battle_events userId id env w)) = Deny Forbidden ->
         issued w (snd (get_battle_events userId id env w))
         = [(AllianceMembers, Select); (Alliances, Select)])) /\
  (decision (fst (get_alliance_members userId id env w)) = Deny Forbidden ->
   ~ In (AllianceMembers, Select)
       (issued w (snd (get_alliance_members userId id env w)))) /\
  (decision (fst (get_battle_events userId id env w)) = Deny Forbidden ->
   ~ In (BattleEvents, Select)
       (issued w (snd (get_battle_events userId id env w)))).
Proof.
  rewrite get_alliance_members_run, get_battle_events_run.
  unfold may_read_events, listing.
  assert (Hone : forall t, issued w (sent t Select w) = [(t, Select)]).
  { intros t. now apply issued_app. }
  assert (Htwo : forall t u,
             issued w (sent u Select (sent t Select w))
             = [(t, Select); (u, Select)]).
  { intros t u. apply issued_app. cbn. now rewrite <- app_assoc. }
  assert (Hthree : forall t u v,
             issued w (sent v Select (sent u Select (sent t Select w)))
             = [(t, Select); (u, Select); (v, Select)]).
  { intros t u v. apply issued_app. cbn. now rewrite <- !app_assoc. }
  assert (Hnot1 : ~ In (BattleEvents, Select) [(AllianceMembers, Select)]).
  { intros [H|[]]; discriminate. }
  assert (Hnot2 : ~ In (BattleEvents, Select)
                    [(AllianceMembers, Select); (Alliances, Select)]).
  { intros [H|[H|[]]]; discriminate. }
  assert (Hnot3 : ~ In (AllianceMembers, Select) [(Alliances, Select)]).
  { intros [H|[]]; discriminate. }
  split; [|split; [|split]].
  - destruct (is_manager env (db w) userId id); cbn [fst snd]; auto.
  - destruct (faults env AllianceMembers) as [msg|]; cbn [fst snd].
    + rewrite Hone. repeat split; auto; discriminate.
    + destruct (filter _ (alliance_members (db w))) as [|m [|m' rest]];
        cbn [fst snd]; try (rewrite Hone; repeat split; auto; discriminate).
      destruct (is_manager env (db w) userId (am_alliance_id m)); cbn [fst snd].
      * apply Hthree.
      * rewrite Htwo. repeat split; auto; discriminate.
  - destruct (is_manager env (db w) userId id); cbn [fst snd].
    + destruct (faults env AllianceMembers); discriminate.
    + now rewrite Hone.
  - destruct (faults env AllianceMembers) as [msg|]; cbn [fst snd].
    + now rewrite Hone.
    + destruct (filter _ (alliance_members (db w))) as [|m [|m' rest]];
        cbn [fst snd]; try (now rewrite Hone).
      destruct (is_manager env (db w) userId (am_alliance_id m)); cbn [fst snd].
      * destruct (faults env BattleEvents); discriminate.
      * now rewrite Htwo.
Qed.

Lemma check_precedes_fetch_on_scenario :
  ~ In (BattleEvents, Select)
      (issued scenario (snd (get_battle_events "U2" "M1" calm scenario))).
Proof.
  destruct (check_precedes_fetch calm scenario "U2" "M1") as (_ & _ & _ & H).
  apply H. reflexivity.
Defined.

(** C9: a caller who does not manage the requested alliance is sent the
    same 403 response, status and body, whether the alliance id is absent
    from the store or names an alliance with another manager, and whatever
    the state of the store. *)
Theorem non_manager_cannot_tell_missing_from_foreign
    (env1 env2 : Env) (w1 w2 : World) (Q allianceId : string) (a : AllianceRow) :
  no_row al_id allianceId (alliances (db w1)) ->
  only_row al_id allianceId (alliances (db w2)) a ->
  al_manager_id a <> Q ->
  fst (get_alliance_members Q allianceId env1 w1)
  = fst (get_alliance_members Q allianceId env2 w2) /\
  fst (get_alliance_members Q allianceId env1 w1) = forbidden.
Proof.
  intros Hnone Hrow Hne.
  rewrite !get_alliance_members_run.
  rewrite is_manager_no_row by assumption.
  rewrite (is_manager_foreign env2 (db w2) Q allianceId a) by assumption.
  split; reflexivity.
Qed.

Lemma non_manager_cannot_tell_missing_from_foreign_on_scenario :
  fst (get_alliance_members "U2" "A1" calm deserted)
  = fst (get_alliance_members "U2" "A1" users_down scenario).
Proof.
  apply (non_manager_cannot_tell_missing_from_foreign calm users_down
           deserted scenario "U2" "A1"
           {| al_id := "A1"; al_manager_id := "U1" |}).
  - reflexivity.
  - reflexivity.
  - discriminate.
Defined.

(** * Stat records *)

Lemma post_stats_allowed (env : Env) (w : World) (k : StatKind)
    (userId : string) (payload : Json) :
  decision (fst (post_stats k userId (Some payload) env w)) = Allow ->
  faults env (stat_table k) = None /\
  post_stats k userId (Some payload) env w =
  (ok (PStatRows [stat_row userId payload (now env)]),
   with_db (set_stat_rows k
              (upsert_row (stat_row userId payload (now env))
                 (stat_rows k (db w)))
              (db w))
     (sent (stat_table k) Upsert w)).
Proof.
  destruct (truthy (Some payload)) eqn:Ht.
  - rewrite post_stats_truthy by assumption.
    destruct (faults env (stat_table k)); [discriminate|]. now split.
  - rewrite post_stats_falsy by assumption. discriminate.
Qed.

(** C4: on a stat table whose primary key is [user_id], two successive
    successful upserts by [P] with payloads [s1] then [s2] leave exactly one
    row of that kind for [P], and its [stats] is [s2]; its [created_at] is
    whatever the clock read at the second call. *)
Theorem upsert_twice_last_wins
    (env1 env2 : Env) (w : World) (k : StatKind) (P : string) (s1 s2 : Json) :
  primary_key (stat_rows k (db w)) ->
  decision (fst (post_stats k P (Some s1) env1 w)) = Allow ->
  decision (fst (post_stats k P (Some s2) env2
                   (snd (post_stats k P (Some s1) env1 w)))) = Allow ->
  exists row,
    filter (owned_by P)
      (stat_rows k (db (snd (post_stats k P (Some s2) env2
                               (snd (post_stats k P (Some s1) env1 w))))))
    = [row] /\
    st_user_id row = P /\
    st_stats row = s2 /\
    primary_key
      (stat_rows k (db (snd (post_stats k P (Some s2) env2
                               (snd (post_stats k P (Some s1) env1 w)))))).
Proof.
  intros Hpk H1 H2.
  destruct (post_stats_allowed _ _ _ _ _ H1) as [_ E1].
  rewrite E1 in H2 |- *. cbn [snd] in *.
  destruct (post_stats_allowed _ _ _ _ _ H2) as [_ E2].
  rewrite E2. cbn [snd db with_db sent]. rewrite !stat_rows_set.
  exists (stat_row P s2 (now env2)).
  assert (Hpk1 : primary_key (upsert_row (stat_row P s1 (now env1))
                                (stat_rows k (db w))))
    by now apply upsert_row_primary_key.
  repeat split.
  - apply (upsert_row_own (stat_row P s2 (now env2))). exact Hpk1.
  - now apply upsert_row_primary_key.
Qed.

Lemma upsert_twice_last_wins_on_scenario :
  exists row,
    filter (owned_by "U1")
      (military_stats
         (db (snd (post_stats Military "U1" (Some (JObj [("attack", JNum 12)])) later
                     (snd (post_stats Military "U1"
                             (Some (JObj [("attack", JNum 10)])) calm scenario))))))
    = [row] /\
    st_stats row = JObj [("attack", JNum 12)].
Proof.
  destruct (upsert_twice_last_wins calm later scenario Military "U1"
              (JObj [("attack", JNum 10)]) (JObj [("attack", JNum 12)]))
    as (row & Hrow & _ & Hstats & _).
  - constructor.
  - reflexivity.
  - reflexivity.
  - exists row. split; assumption.
Defined.

Lemma post_stats_others (env : Env) (w : World) (k : StatKind)
    (writer other : string) (input : option Json) :
  writer <> other ->
  filter (owned_by other) (stat_rows k (db (snd (post_stats k writer input env w))))
  = filter (owned_by other) (stat_rows k (db w)).
Proof.
  intros Hne. destruct (truthy input) eqn:Ht.
  - destruct (truthy_some _ Ht) as [payload ->].
    rewrite post_stats_truthy by assumption.
    destruct (faults env (stat_table k)); [reflexivity|].
    cbn [snd db with_db sent]. rewrite stat_rows_set.
    now apply upsert_row_others.
  - now rewrite post_stats_falsy.
Qed.

Lemma post_stats_other_kinds (env : Env) (w : World) (k k' : StatKind)
    (writer : string) (input : option Json) :
  k' <> k ->
  stat_rows k' (db (snd (post_stats k writer input env w))) = stat_rows k' (db w).
Proof.
  intros Hne. destruct (truthy input) eqn:Ht.
  - destruct (truthy_some _ Ht) as [payload ->].
    rewrite post_stats_truthy by assumption.
    destruct (faults env (stat_table k)); [reflexivity|].
    cbn [snd db with_db sent]. now apply stat_rows_set_other.
  - now rewrite post_stats_falsy.
Qed.

(** C5: for principals [P <> Q] and any kind, what [Q] reads after an
    upsert by [P] is what [Q] read before it, so it is the empty list when
    [Q] has no row of its own; whatever [Q] reads is made of the rows keyed
    by [Q]; and whatever [stats] input [Q] posts, the rows keyed by [P]
    stay as they were, as do the tables of the other kinds, and the row a
    successful post by [Q] returns is keyed by [Q]: the key written is the
    authenticated principal and the kind of the route. *)
Theorem stat_records_are_isolated
    (envP envQ : Env) (w : World) (k : StatKind) (P Q : string)
    (payload : option Json) :
  P <> Q ->
  fst (get_stats k Q envQ (snd (post_stats k P payload envP w)))
  = fst (get_stats k Q envQ w) /\
  (no_row st_user_id Q (stat_rows k (db w)) ->
   faults envQ (stat_table k) = None ->
   fst (get_stats k Q envQ (snd (post_stats k P payload envP w)))
   = ok (PStats [])) /\
  (forall rows,
      fst (get_stats k Q envQ (snd (post_stats k P payload envP w)))
      = ok (PStats rows) ->
      rows = map (fun s => {| stats := st_stats s |})
               (filter (owned_by Q)
                  (stat_rows k (db (snd (post_stats k P payload envP w)))))) /\
  (forall input : option Json,
      filter (owned_by P)
        (stat_rows k (db (snd (post_stats k Q input envQ
                                 (snd (post_stats k P payload envP w))))))
      = filter (owned_by P)
          (stat_rows k (db (snd (post_stats k P payload envP w))))) /\
  (forall (input : option Json) (k' : StatKind), k' <> k ->
      stat_rows k' (db (snd (post_stats k Q input envQ w)))
      = stat_rows k' (db w)) /\
  (forall (input : option Json) (rows : list StatRow),
      fst (post_stats k Q input envQ w) = ok (PStatRows rows) ->
      forall r, In r rows -> st_user_id r = Q).
Proof.
  intros Hne.
  assert (Hsame : fst (get_stats k Q envQ (snd (post_stats k P payload envP w)))
                  = fst (get_stats k Q envQ w)).
  { rewrite !get_stats_run. cbn [fst]. now rewrite post_stats_others. }
  split; [exact Hsame|]. split; [|split; [|split; [|split]]].
  - intros Hnone Hf. rewrite Hsame, get_stats_run. cbn [fst].
    unfold listing. rewrite Hf. unfold no_row in Hnone. unfold owned_by.
    now rewrite Hnone.
  - intros rows. rewrite get_stats_run. cbn [fst]. unfold listing.
    destruct (faults envQ (stat_table k)); [discriminate|].
    intros [= <-]. reflexivity.
  - intros input. apply post_stats_others. congruence.
  - intros input k' Hk. now apply post_stats_other_kinds.
  - intros input rows. destruct (truthy input) eqn:Ht.
    + destruct (truthy_some _ Ht) as [sent_stats ->].
      rewrite post_stats_truthy by assumption.
      destruct (faults envQ (stat_table k)); [discriminate|].
      intros [= <-] r [<-|[]]. reflexivity.
    + rewrite post_stats_falsy by assumption. discriminate.
Qed.

Lemma stat_records_are_isolated_on_scenario :
  fst (get_stats Military "U2" calm
         (snd (post_stats Military "U1" (Some (JObj [("attack", JNum 10)]))
                 calm scenario)))
  = ok (PStats []).
Proof.
  destruct (stat_records_are_isolated calm calm scenario Military "U1" "U2"
              (Some (JObj [("attack", JNum 10)]))) as (_ & H & _).
  - discriminate.
  - apply H; reflexivity.
Defined.

(** C6, as the specification has it, fails on the empty object: [{}] is an
    empty payload, yet the military-stats upsert accepts it and writes the
    row; and [0], a payload that is not empty, is answered with 400. *)
Lemma empty_object_is_accepted :
  empty_payload (Some (JObj [])) = true /\
  post_stats Military "U1" (Some (JObj [])) calm scenario
  = (ok (PStatRows [stat_row "U1" (JObj []) (now calm)]),
     with_db (set_stat_rows Military [stat_row "U1" (JObj []) (now calm)]
                scenario_db)
       (sent MilitaryStats Upsert scenario)) /\
  decision (fst (post_stats Military "U1" (Some (JObj [])) calm scenario))
  <> Deny InvalidPayload /\
  empty_payload (Some (JNum 0)) = false /\
  decision (fst (post_stats Military "U1" (Some (JNum 0)) calm scenario))
  = Deny InvalidPayload.
Proof.
  repeat split; try reflexivity. discriminate.
Qed.

(** C6 (amended): a stat upsert whose [stats] is absent or falsy ([null],
    [false], [0], the empty string) is answered 400 "Stats required" and
    leaves the world as it was: no query is sent, nothing is written.  A
    request answered as InvalidPayload had such a [stats]; every other
    value, the empty object and the empty array among them, gets past the
    check. *)
Theorem stats_required_iff_falsy
    (env : Env) (w : World) (k : StatKind) (userId : string) (s : option Json) :
  (falsy_payload s -> post_stats k userId s env w = (invalid_payload, w)) /\
  (decision (fst (post_stats k userId s env w)) = Deny InvalidPayload ->
   falsy_payload s).
Proof.
  split.
  - intros H. apply post_stats_falsy. now apply falsy_payload_iff.
  - intros H. apply falsy_payload_iff.
    destruct (truthy s) eqn:Ht; [|reflexivity].
    destruct (truthy_some _ Ht) as [payload ->].
    rewrite post_stats_truthy in H by assumption.
    destruct (faults env (stat_table k)); discriminate.
Qed.

Lemma stats_required_iff_falsy_on_scenario :
  post_stats Development "U1" None calm scenario = (invalid_payload, scenario).
Proof.
  apply (stats_required_iff_falsy calm scenario Development "U1" None).
  constructor.
Defined.

(** C10: when the store answers and the principal has no row of a stat
    kind, the GET route of that kind succeeds with the empty list; with or
    without an answering store it is never answered as NotFound. *)
Theorem no_record_reads_empty
    (env : Env) (w : World) (k : StatKind) (P : string) :
  no_row st_user_id P (stat_rows k (db w)) ->
  (faults env (stat_table k) = None ->
   get_stats k P env w = (ok (PStats []), sent (stat_table k) Select w) /\
   decision (fst (get_stats k P env w)) = Allow) /\
  decision (fst (get_stats k P env w)) <> Deny NotFound.
Proof.
  intros Hnone. rewrite get_stats_run. unfold listing, owned_by.
  unfold no_row in Hnone. rewrite Hnone. split.
  - intros ->. split; reflexivity.
  - cbn [fst]. destruct (faults env (stat_table k)); discriminate.
Qed.

Lemma no_record_reads_empty_on_scenario :
  get_military_stats "U1" calm scenario
  = (ok (PStats []), sent MilitaryStats Select scenario) /\
  get_resources_stats "U1" calm scenario
  = (ok (PStats []), sent ResourcesStats Select scenario) /\
  get_development_stats "U1" calm scenario
  = (ok (PStats []), sent DevelopmentStats Select scenario).
Proof.
  split; [|split].
  - apply (no_record_reads_empty calm scenario Military "U1"); reflexivity.
  - apply (no_record_reads_empty calm scenario Resources "U1"); reflexivity.
  - apply (no_record_reads_empty calm scenario Development "U1"); reflexivity.
Defined.

(** * Error bodies *)

Section SimpleRuns.

Variables (env : Env) (w : World) (userId : string).

Lemma get_user_run :
  get_user userId env w =
  (match faults env Users with
   | Some msg => storage_error msg
   | None =>
       match filter (fun u => (u_id u =? userId)%string) (users (db w)) with
       | [u] => ok (PUser u)
       | _ => storage_error single_row_error
       end
   end,
   sent Users Select w).
Proof.
  unfold get_user, route. unfold bind. rewrite single_select_eq_run.
  destruct (faults env Users); [reflexivity|].
  destruct (filter _ (users (db w))) as [|u [|u' rest]]; reflexivity.
Qed.

Lemma get_player_info_run :
  get_player_info userId env w =
  (listing env PlayerInfo
     (PPlayerRows (filter (fun p => (p_user_id p =? userId)%string)
                     (player_info (db w)))),
   sent PlayerInfo Select w).
Proof.
  unfold get_player_info, route, bind, select_eq, listing.
  destruct (faults env PlayerInfo); cbn; rewrite ?map_id; reflexivity.
Qed.

Lemma get_player_resources_run :
  get_player_resources userId env w =
  (listing env PlayerResources
     (PPlayerRows (filter (fun p => (p_user_id p =? userId)%string)
                     (player_resources (db w)))),
   sent PlayerResources Select w).
Proof.
  unfold get_player_resources, route, bind, select_eq, listing.
  destruct (faults env PlayerResources); cbn; rewrite ?map_id; reflexivity.
Qed.

Lemma get_alliances_run :
  get_alliances userId env w =
  (listing env Alliances
     (PAlliances (filter (fun a => (al_manager_id a =? userId)%string)
                    (alliances (db w)))),
   sent Alliances Select w).
Proof.
  unfold get_alliances, route, bind, select_eq, listing.
  destruct (faults env Alliances); cbn; rewrite ?map_id; reflexivity.
Qed.

End SimpleRuns.

(** C7, as the specification has it, fails when the store refuses a query:
    the 500 body of GET /api/user is the store's own message, not a generic
    one, and nothing is written to the console.  The battle-events route
    does the same with the complaint of [.single()] about a member id that
    names no row. *)
Lemma store_message_reaches_the_caller :
  get_user "U1" users_down scenario
  = ({| status := 500; body := ErrorBody "connection to 10.0.3.7:5432 refused" |},
     sent Users Select scenario) /\
  body (fst (get_user "U1" users_down scenario)) <> ErrorBody generic_message /\
  console (snd (get_user "U1" users_down scenario)) = [] /\
  no_row am_id "M9" (alliance_members (db scenario)) /\
  fst (get_battle_events "U1" "M9" calm scenario)
  = {| status := 500;
       body := ErrorBody "JSON object requested, multiple (or no) rows returned" |}.
Proof.
  repeat split; try reflexivity. discriminate.
Qed.

Ltac storage_case F :=
  cbn; repeat split; try discriminate; try reflexivity;
  intros _; right; eexists; eexists; split; [exact F | reflexivity].

Ltac plain_case :=
  cbn; repeat split; try discriminate; try reflexivity;
  intros _; left; reflexivity.

(** C7 (amended): for every request, a Forbidden response is the fixed 403
    body and an InvalidPayload response the fixed 400 body, neither with
    any text from the store; no response is a NotFound; a StorageError
    response carries, verbatim, the message of the store's error (the
    message the store gave for the failing table, or the complaint of
    [.single()]); and the handlers write nothing to the console. *)
Theorem error_bodies (req : Request) (env : Env) (w : World) :
  (decision (fst (handle req env w)) = Deny Forbidden ->
   fst (handle req env w) = forbidden) /\
  (decision (fst (handle req env w)) = Deny InvalidPayload ->
   fst (handle req env w) = invalid_payload) /\
  decision (fst (handle req env w)) <> Deny NotFound /\
  (decision (fst (handle req env w)) = Deny StorageError ->
   body (fst (handle req env w)) = ErrorBody single_row_error \/
   exists t msg, faults env t = Some msg /\
                 body (fst (handle req env w)) = ErrorBody msg) /\
  console (snd (handle req env w)) = console w.
Proof.
  destruct req as [ | u | u | u | k u | k u s | u | u a | u m ]; cbn [handle].
  - cbn. repeat split; discriminate.
  - rewrite get_user_run.
    destruct (faults env Users) as [msg|] eqn:F; [storage_case F|].
    destruct (filter _ (users (db w))) as [|r [|r' rest]]; plain_case.
  - rewrite get_player_info_run. unfold listing.
    destruct (faults env PlayerInfo) as [msg|] eqn:F;
      [storage_case F | plain_case].
  - rewrite get_player_resources_run. unfold listing.
    destruct (faults env PlayerResources) as [msg|] eqn:F;
      [storage_case F | plain_case].
  - rewrite get_stats_run. unfold listing.
    destruct (faults env (stat_table k)) as [msg|] eqn:F;
      [storage_case F | plain_case].
  - destruct (truthy s) eqn:Ht.
    + destruct (truthy_some _ Ht) as [payload ->].
      rewrite post_stats_truthy by assumption.
      destruct (faults env (stat_table k)) as [msg|] eqn:F;
        [storage_case F | plain_case].
    + rewrite post_stats_falsy by assumption. plain_case.
  - rewrite get_alliances_run. unfold listing.
    destruct (faults env Alliances) as [msg|] eqn:F;
      [storage_case F | plain_case].
  - rewrite get_alliance_members_run. unfold listing.
    destruct (is_manager env (db w) u a); [|plain_case].
    destruct (faults env AllianceMembers) as [msg|] eqn:F;
      [storage_case F | plain_case].
  - rewrite get_battle_events_run. unfold listing.
    destruct (faults env AllianceMembers) as [msg|] eqn:F; [storage_case F|].
    destruct (filter _ (alliance_members (db w))) as [|r [|r' rest]];
      try plain_case.
    destruct (is_manager env (db w) u (am_alliance_id r)); [|plain_case].
    destruct (faults env BattleEvents) as [msg|] eqn:F';
      [storage_case F' | plain_case].
Qed.

Lemma error_bodies_on_scenario :
  fst (handle (GetBattleEvents "U2" "M1") calm scenario) = forbidden.
Proof.
  apply (error_bodies (GetBattleEvents "U2" "M1") calm scenario).
  reflexivity.
Defined.

(** * Beyond the ownership checks *)

(** ** Refused requests *)

(** X1: a request Clerk refuses, on any route but [/health], reaches no
    handler: no query is sent and no table changes.  An error whose
    [status] is the number 401 or 403 is answered with that status and the
    body "Unauthorized", and nothing is logged; every other error (another
    status, a status that is not a number, none at all) is answered 500
    "Something went wrong!" with [err.stack] on the console. *)
Theorem refused_request_reaches_no_handler
    (err : AuthError) (r : Route) (env : Env) (w : World) :
  r <> HealthRoute ->
  db (snd (app (Refused err) r env w)) = db w /\
  queries (snd (app (Refused err) r env w)) = queries w /\
  (forall code,
      err_status err = Some (JNum code) -> code = 401 \/ code = 403 ->
      app (Refused err) r env w = (unauthorized code, w)) /\
  ((forall code, err_status err = Some (JNum code) -> code <> 401 /\ code <> 403) ->
   app (Refused err) r env w
   = ({| status := 500; body := ErrorBody generic_message |},
      console_error (err_stack err) w)).
Proof.
  intros Hr.
  assert (Happ : app (Refused err) r env w
                 = handleClerkAuthError err error_middleware env w).
  { destruct r; try reflexivity. congruence. }
  rewrite Happ. unfold handleClerkAuthError.
  destruct (err_status err) as [[| b | code | s | items | fields]|] eqn:Hs;
    try (cbn; repeat split; try reflexivity;
         intros code' Hc; discriminate Hc).
  destruct ((code =? 401) || (code =? 403)) eqn:Hcode.
  - cbn. repeat split.
    + intros code' [= <-] _. reflexivity.
    + intros Hno. destruct (Hno code eq_refl) as [H1 H3].
      apply orb_true_iff in Hcode. destruct Hcode as [H|H];
        apply Z.eqb_eq in H; contradiction.
  - cbn. repeat split.
    intros code' [= <-] Hc. apply orb_false_iff in Hcode.
    destruct Hcode as [H1 H3]. apply Z.eqb_neq in H1, H3. lia.
Qed.

Lemma refused_request_reaches_no_handler_on_scenario :
  app (Refused unauthenticated) (BattleEventsRoute "M1") calm scenario
  = (unauthorized 401, scenario) /\
  app (Refused statusless) (BattleEventsRoute "M1") calm scenario
  = ({| status := 500; body := ErrorBody generic_message |},
     console_error "Error: Unauthenticated" scenario).
Proof.
  split.
  - apply (refused_request_reaches_no_handler unauthenticated
             (BattleEventsRoute "M1") calm scenario).
    + discriminate.
    + reflexivity.
    + left. reflexivity.
  - apply (refused_request_reaches_no_handler statusless
             (BattleEventsRoute "M1") calm scenario).
    + discriminate.
    + intros code H. discriminate H.
Defined.

(** ** Whose rows a response carries *)

Lemma filter_single_holds {A : Type} (f : A -> bool) (l : list A) (x : A) :
  filter f l = [x] -> f x = true /\ In x l.
Proof.
  intros H. assert (Hin : In x (filter f l)) by (rewrite H; now left).
  apply filter_In in Hin. tauto.
Qed.

Lemma filter_owner {A : Type} (key : A -> string) (u o : string) (l : list A) :
  In o (map key (filter (fun x => (key x =? u)%string) l)) -> o = u.
Proof.
  intros H. apply in_map_iff in H. destruct H as (x & <- & Hx).
  apply filter_In in Hx. now apply String.eqb_eq.
Qed.

(** X2: whatever the request and the state of the store, every row of a
    response that has an owner column ([users.id], [user_id],
    [alliances.manager_id]) is owned by the principal of the request. *)
Theorem responses_carry_only_own_rows
    (req : Request) (env : Env) (w : World) (p : Payload) (owner : string) :
  body (fst (handle req env w)) = DataBody (Some p) ->
  In owner (direct_owners p) ->
  principal_of req = Some owner.
Proof.
  destruct req as [ | u | u | u | k u | k u s | u | u a | u m ]; cbn [handle].
  - cbn. discriminate.
  - rewrite get_user_run. cbn [fst].
    destruct (faults env Users); [discriminate|].
    destruct (filter _ (users (db w))) as [|r [|r' rest]] eqn:Hf;
      try discriminate.
    intros [= <-] [<-|[]]. cbn.
    apply filter_single_holds in Hf. destruct Hf as [Hu _].
    apply String.eqb_eq in Hu. now rewrite Hu.
  - rewrite get_player_info_run. cbn [fst]. unfold listing.
    destruct (faults env PlayerInfo); [discriminate|].
    intros [= <-] Hin. cbn in *. f_equal. symmetry.
    now apply (filter_owner p_user_id u owner (player_info (db w))).
  - rewrite get_player_resources_run. cbn [fst]. unfold listing.
    destruct (faults env PlayerResources); [discriminate|].
    intros [= <-] Hin. cbn in *. f_equal. symmetry.
    now apply (filter_owner p_user_id u owner (player_resources (db w))).
  - rewrite get_stats_run. cbn [fst]. unfold listing.
    destruct (faults env (stat_table k)); [discriminate|].
    intros [= <-] [].
  - destruct (truthy s) eqn:Ht.
    + destruct (truthy_some _ Ht) as [payload ->].
      rewrite post_stats_truthy by assumption.
      destruct (faults env (stat_table k)); [discriminate|].
      intros [= <-] [<-|[]]. reflexivity.
    + rewrite post_stats_falsy by assumption. discriminate.
  - rewrite get_alliances_run. cbn [fst]. unfold listing.
    destruct (faults env Alliances); [discriminate|].
    intros [= <-] Hin. cbn in *. f_equal. symmetry.
    now apply (filter_owner al_manager_id u owner (alliances (db w))).
  - rewrite get_alliance_members_run. unfold listing.
    destruct (is_manager env (db w) u a); [|discriminate].
    destruct (faults env AllianceMembers); [discriminate|].
    intros [= <-] [].
  - rewrite get_battle_events_run. unfold listing.
    destruct (faults env AllianceMembers); [discriminate|].
    destruct (filter _ (alliance_members (db w))) as [|r [|r' rest]];
      try discriminate.
    destruct (is_manager env (db w) u (am_alliance_id r)); [|discriminate].
    destruct (faults env BattleEvents); [discriminate|].
    intros [= <-] [].
Qed.

Lemma responses_carry_only_own_rows_on_scenario :
  principal_of (GetAlliances "U1") = Some "U1".
Proof.
  apply (responses_carry_only_own_rows (GetAlliances "U1") calm scenario
           (PAlliances [ {| al_id := "A1"; al_manager_id := "U1" |} ]) "U1").
  - reflexivity.
  - left. reflexivity.
Defined.

(** ** Who is allowed through the nested routes *)

Lemma is_manager_true (env : Env) (d : Db) (userId allianceId : string) :
  is_manager env d userId allianceId = true ->
  faults env Alliances = None /\
  exists a, only_row al_id allianceId (alliances d) a /\
            al_manager_id a = userId.
Proof.
  unfold is_manager, only_row.
  destruct (faults env Alliances); [discriminate|].
  destruct (filter _ (alliances d)) as [|a [|a' rest]]; try discriminate.
  intros H. apply String.eqb_eq in H. eauto.
Qed.

(** X3: the alliance-members route answers 200 only to the manager: the
    alliance id then names exactly one row, its [manager_id] is the caller,
    and the rows sent are exactly the members whose [alliance_id] is the
    requested id. *)
Theorem members_sent_only_to_manager
    (env : Env) (w : World) (userId allianceId : string) :
  decision (fst (get_alliance_members userId allianceId env w)) = Allow ->
  (exists a, only_row al_id allianceId (alliances (db w)) a /\
             al_manager_id a = userId) /\
  fst (get_alliance_members userId allianceId env w)
  = ok (PMembers (filter (fun m => (am_alliance_id m =? allianceId)%string)
                    (alliance_members (db w)))).
Proof.
  rewrite get_alliance_members_run.
  destruct (is_manager env (db w) userId allianceId) eqn:Hm; [|discriminate].
  apply is_manager_true in Hm. destruct Hm as [_ Ha].
  unfold listing. destruct (faults env AllianceMembers); [discriminate|].
  intros _. split; [exact Ha | reflexivity].
Qed.

Lemma members_sent_only_to_manager_on_scenario :
  exists a, only_row al_id "A1" (alliances (db scenario)) a /\
            al_manager_id a = "U1".
Proof.
  apply (members_sent_only_to_manager calm scenario "U1" "A1").
  reflexivity.
Defined.

(** X4: the battle-events route answers 200 only along a whole chain: the
    member id names exactly one AllianceMember row, that row's
    [alliance_id] names exactly one Alliance row, the caller is its
    manager, and the rows sent are exactly the events of that member. *)
Theorem events_sent_only_along_the_chain
    (env : Env) (w : World) (userId allianceMemberId : string) :
  decision (fst (get_battle_events userId allianceMemberId env w)) = Allow ->
  (exists m a,
      only_row am_id allianceMemberId (alliance_members (db w)) m /\
      only_row al_id (am_alliance_id m) (alliances (db w)) a /\
      al_manager_id a = userId) /\
  fst (get_battle_events userId allianceMemberId env w)
  = ok (PEvents (filter
                   (fun e => (be_alliance_member_id e =? allianceMemberId)%string)
                   (battle_events (db w)))).
Proof.
  rewrite get_battle_events_run.
  destruct (faults env AllianceMembers); [discriminate|].
  destruct (filter _ (alliance_members (db w))) as [|m [|m' rest]] eqn:Hf;
    try discriminate.
  destruct (is_manager env (db w) userId (am_alliance_id m)) eqn:Hm;
    [|discriminate].
  apply is_manager_true in Hm. destruct Hm as [_ (a & Ha & Hu)].
  unfold listing. destruct (faults env BattleEvents); [discriminate|].
  intros _. split; [|reflexivity].
  exists m, a. repeat split; assumption.
Qed.

Lemma events_sent_only_along_the_chain_on_scenario :
  fst (get_battle_events "U1" "M1" calm scenario)
  = ok (PEvents [ {| be_id := "E1"; be_alliance_member_id := "M1" |} ]).
Proof.
  apply (events_sent_only_along_the_chain calm scenario "U1" "M1").
  reflexivity.
Defined.

(** X5: every alliance the listing route sends to a principal is one
    whose members that principal may read: when the store answers on
    [alliances] and the listed row's id names that row only, the
    alliance-members route does not answer Forbidden for it. *)
Theorem listed_alliances_are_readable
    (env : Env) (w : World) (userId : string) (rows : list AllianceRow)
    (a : AllianceRow) :
  fst (get_alliances userId env w) = ok (PAlliances rows) ->
  In a rows ->
  only_row al_id (al_id a) (alliances (db w)) a ->
  is_manager env (db w) userId (al_id a) = true /\
  decision (fst (get_alliance_members userId (al_id a) env w))
  <> Deny Forbidden.
Proof.
  rewrite get_alliances_run. cbn [fst]. unfold listing.
  destruct (faults env Alliances) eqn:Hf; [discriminate|].
  intros [= <-] Hin Hrow.
  apply filter_In in Hin. destruct Hin as [_ Hu].
  assert (Hm : is_manager env (db w) userId (al_id a) = true).
  { rewrite (is_manager_only_row env (db w) userId (al_id a) a Hf Hrow).
    exact Hu. }
  split; [exact Hm|].
  rewrite get_alliance_members_run, Hm. unfold listing.
  destruct (faults env AllianceMembers); discriminate.
Qed.

Lemma listed_alliances_are_readable_on_scenario :
  is_manager calm (db scenario) "U1" "A1" = true.
Proof.
  apply (listed_alliances_are_readable calm scenario "U1"
           [ {| al_id := "A1"; al_manager_id := "U1" |} ]
           {| al_id := "A1"; al_manager_id := "U1" |}).
  - reflexivity.
  - left. reflexivity.
  - reflexivity.
Defined.

(** ** GET /api/user *)

(** X6: when the store answers, GET /api/user sends the caller's row when
    [users] holds exactly one row with the caller's id, and answers 500
    with the complaint of [.single()], not an empty body and not a 404,
    when it holds none. *)
Theorem user_row_or_single_error (env : Env) (w : World) (userId : string) :
  faults env Users = None ->
  (forall u, only_row u_id userId (users (db w)) u ->
             fst (get_user userId env w) = ok (PUser u)) /\
  (no_row u_id userId (users (db w)) ->
   fst (get_user userId env w) = storage_error single_row_error).
Proof.
  intros Hf. rewrite get_user_run, Hf. cbn [fst]. split.
  - intros u Hu. unfold only_row in Hu. now rewrite Hu.
  - intros Hn. unfold no_row in Hn. now rewrite Hn.
Qed.

Lemma user_row_or_single_error_on_scenario :
  fst (get_user "U1" calm scenario)
  = ok (PUser {| u_id := "U1"; u_columns := JObj [] |}) /\
  fst (get_user "U2" calm scenario) = storage_error single_row_error.
Proof.
  split.
  - apply (user_row_or_single_error calm scenario "U1"); reflexivity.
  - apply (user_row_or_single_error calm scenario "U2"); reflexivity.
Defined.

(** ** What a request changes *)

Ltac unchanged :=
  repeat split; try reflexivity; try (intros _; reflexivity).

(** X7: no request but a stat update changes a table, and a stat update
    changes no table but the stat table of its kind: the identity, player
    and alliance tables are the same after every request. *)
Theorem only_stat_updates_write (req : Request) (env : Env) (w : World) :
  (is_update req = false -> db (snd (handle req env w)) = db w) /\
  users (db (snd (handle req env w))) = users (db w) /\
  player_info (db (snd (handle req env w))) = player_info (db w) /\
  player_resources (db (snd (handle req env w))) = player_resources (db w) /\
  alliances (db (snd (handle req env w))) = alliances (db w) /\
  alliance_members (db (snd (handle req env w))) = alliance_members (db w) /\
  battle_events (db (snd (handle req env w))) = battle_events (db w).
Proof.
  destruct req as [ | u | u | u | k u | k u s | u | u a | u m ]; cbn [handle].
  - cbn. unchanged.
  - rewrite get_user_run. unchanged.
  - rewrite get_player_info_run. unchanged.
  - rewrite get_player_resources_run. unchanged.
  - rewrite get_stats_run. unchanged.
  - split; [discriminate|].
    destruct (truthy s) eqn:Ht.
    + destruct (truthy_some _ Ht) as [payload ->].
      rewrite post_stats_truthy by assumption.
      destruct (faults env (stat_table k)); [unchanged|].
      destruct k; unchanged.
    + rewrite post_stats_falsy by assumption. unchanged.
  - rewrite get_alliances_run. unchanged.
  - rewrite get_alliance_members_run.
    destruct (is_manager env (db w) u a); unchanged.
  - rewrite get_battle_events_run.
    destruct (faults env AllianceMembers); [unchanged|].
    destruct (filter _ (alliance_members (db w))) as [|r [|r' rest]];
      [unchanged | | unchanged].
    destruct (is_manager env (db w) u (am_alliance_id r)); unchanged.
Qed.

Lemma only_stat_updates_write_on_scenario :
  db (snd (handle (GetBattleEvents "U1" "M1") calm scenario)) = db scenario.
Proof.
  apply (only_stat_updates_write (GetBattleEvents "U1" "M1") calm scenario).
  reflexivity.
Defined.

(** X8: an [Upsert] is sent only by a stat update whose [stats] is truthy,
    and only to the stat table of its kind; and no request sends more than
    three queries. *)
Theorem upserts_come_from_stat_updates
    (req : Request) (env : Env) (w : World) :
  (forall t, In (t, Upsert) (issued w (snd (handle req env w))) ->
             exists k u s, req = PostStats k u s /\ t = stat_table k /\
                           truthy s = true) /\
  (length (issued w (snd (handle req env w))) <= 3)%nat.
Proof.
  assert (Hzero : issued w w = []).
  { apply issued_app. now rewrite app_nil_r. }
  assert (Hone : forall t o, issued w (sent t o w) = [(t, o)]).
  { intros t o. now apply issued_app. }
  assert (Htwo : forall t u,
             issued w (sent u Select (sent t Select w))
             = [(t, Select); (u, Select)]).
  { intros t u. apply issued_app. cbn. now rewrite <- app_assoc. }
  assert (Hthree : forall t u v,
             issued w (sent v Select (sent u Select (sent t Select w)))
             = [(t, Select); (u, Select); (v, Select)]).
  { intros t u v. apply issued_app. cbn. now rewrite <- !app_assoc. }
  assert (Hsel1 : forall t t' : Table, In (t, Upsert) [(t', Select)] -> False).
  { intros t t' [H|[]]. discriminate. }
  assert (Hsel2 : forall t t' t'' : Table,
             In (t, Upsert) [(t', Select); (t'', Select)] -> False).
  { intros t t' t'' [H|[H|[]]]; discriminate. }
  assert (Hsel3 : forall t t1 t2 t3 : Table,
             In (t, Upsert) [(t1, Select); (t2, Select); (t3, Select)] -> False).
  { intros t t1 t2 t3 [H|[H|[H|[]]]]; discriminate. }
  destruct req as [ | u | u | u | k u | k u s | u | u a | u m ]; cbn [handle].
  - cbn [get_health route respond ret snd]. rewrite Hzero.
    split; [intros t []| cbn; lia].
  - rewrite get_user_run. cbn [snd]. rewrite Hone.
    split; [intros t H; destruct (Hsel1 _ _ H) | cbn; lia].
  - rewrite get_player_info_run. cbn [snd]. rewrite Hone.
    split; [intros t H; destruct (Hsel1 _ _ H) | cbn; lia].
  - rewrite get_player_resources_run. cbn [snd]. rewrite Hone.
    split; [intros t H; destruct (Hsel1 _ _ H) | cbn; lia].
  - rewrite get_stats_run. cbn [snd]. rewrite Hone.
    split; [intros t H; destruct (Hsel1 _ _ H) | cbn; lia].
  - destruct (truthy s) eqn:Ht.
    + destruct (truthy_some _ Ht) as [payload ->].
      rewrite post_stats_truthy by assumption.
      assert (Hq : issued w
                     (snd (match faults env (stat_table k) with
                           | Some msg =>
                               (storage_error msg, sent (stat_table k) Upsert w)
                           | None =>
                               (ok (PStatRows [stat_row u payload (now env)]),
                                with_db
                                  (set_stat_rows k
                                     (upsert_row (stat_row u payload (now env))
                                        (stat_rows k (db w))) (db w))
                                  (sent (stat_table k) Upsert w))
                           end))
                   = [(stat_table k, Upsert)]).
      { destruct (faults env (stat_table k)); cbn [snd];
          [apply Hone | now apply issued_app]. }
      rewrite Hq. split; [|cbn; lia].
      intros t [[= <-]|[]]. exists k, u, (Some payload). auto.
    + rewrite post_stats_falsy by assumption. cbn [snd]. rewrite Hzero.
      split; [intros t []| cbn; lia].
  - rewrite get_alliances_run. cbn [snd]. rewrite Hone.
    split; [intros t H; destruct (Hsel1 _ _ H) | cbn; lia].
  - rewrite get_alliance_members_run.
    destruct (is_manager env (db w) u a); cbn [snd].
    + rewrite Htwo. split; [intros t H; destruct (Hsel2 _ _ _ H) | cbn; lia].
    + rewrite Hone. split; [intros t H; destruct (Hsel1 _ _ H) | cbn; lia].
  - rewrite get_battle_events_run.
    destruct (faults env AllianceMembers); cbn [snd].
    + rewrite Hone. split; [intros t H; destruct (Hsel1 _ _ H) | cbn; lia].
    + destruct (filter _ (alliance_members (db w))) as [|r [|r' rest]];
        cbn [snd];
        try (rewrite Hone;
             split; [intros t H; destruct (Hsel1 _ _ H) | cbn; lia]).
      destruct (is_manager env (db w) u (am_alliance_id r)); cbn [snd].
      * rewrite Hthree.
        split; [intros t H; destruct (Hsel3 _ _ _ _ H) | cbn; lia].
      * rewrite Htwo.
        split; [intros t H; destruct (Hsel2 _ _ _ H) | cbn; lia].
Qed.

Lemma upserts_come_from_stat_updates_on_scenario :
  exists k u s,
    PostStats Resources "U1" (Some (JNum 7)) = PostStats k u s /\
    ResourcesStats = stat_table k /\ truthy s = true.
Proof.
  apply (upserts_come_from_stat_updates
           (PostStats Resources "U1" (Some (JNum 7))) calm scenario).
  left. reflexivity.
Defined.

(** ** Stat updates and the table they write *)

Lemma handle_db (req : Request) (env : Env) (w : World) :
  db (snd (handle req env w)) = db w \/
  exists k u payload,
    req = PostStats k u (Some payload) /\
    db (snd (handle req env w))
    = set_stat_rows k
        (upsert_row (stat_row u payload (now env)) (stat_rows k (db w)))
        (db w).
Proof.
  destruct req as [ | u | u | u | k u | k u s | u | u a | u m ]; cbn [handle].
  - now left.
  - rewrite get_user_run. now left.
  - rewrite get_player_info_run. now left.
  - rewrite get_player_resources_run. now left.
  - rewrite get_stats_run. now left.
  - destruct (truthy s) eqn:Ht.
    + destruct (truthy_some _ Ht) as [payload ->].
      rewrite post_stats_truthy by assumption.
      destruct (faults env (stat_table k)); [now left|].
      right. exists k, u, payload. split; reflexivity.
    + rewrite post_stats_falsy by assumption. now left.
  - rewrite get_alliances_run. now left.
  - rewrite get_alliance_members_run.
    destruct (is_manager env (db w) u a); now left.
  - rewrite get_battle_events_run.
    destruct (faults env AllianceMembers); [now left|].
    destruct (filter _ (alliance_members (db w))) as [|r [|r' rest]];
      [now left | | now left].
    destruct (is_manager env (db w) u (am_alliance_id r)); now left.
Qed.

(** X9: every request keeps [user_id] a key of every stat table: when no
    two rows of a stat table share a [user_id] before a request, none do
    after it. *)
Theorem requests_keep_primary_key
    (req : Request) (env : Env) (w : World) (k : StatKind) :
  primary_key (stat_rows k (db w)) ->
  primary_key (stat_rows k (db (snd (handle req env w)))).
Proof.
  intros Hpk.
  destruct (handle_db req env w) as [-> | (k' & u & payload & _ & ->)];
    [assumption|].
  destruct k, k'; cbn [set_stat_rows stat_rows military_stats resources_stats
                         development_stats] in *;
    try assumption; now apply upsert_row_primary_key.
Qed.

Lemma requests_keep_primary_key_on_scenario :
  primary_key
    (stat_rows Military
       (db (snd (handle (PostStats Military "U1" (Some (JNum 3))) calm with_stats)))).
Proof.
  apply (requests_keep_primary_key (PostStats Military "U1" (Some (JNum 3)))
           calm with_stats Military).
  repeat constructor. intros [].
Defined.

(** X10: what a principal stores it reads back: after a successful update
    of a stat table keyed by [user_id], the GET route of the same kind,
    asked by the same principal of a store that answers, sends exactly one
    entry, the payload just stored. *)
Theorem stored_stats_are_read_back
    (envW envR : Env) (w : World) (k : StatKind) (P : string) (payload : Json) :
  primary_key (stat_rows k (db w)) ->
  decision (fst (post_stats k P (Some payload) envW w)) = Allow ->
  faults envR (stat_table k) = None ->
  fst (get_stats k P envR (snd (post_stats k P (Some payload) envW w)))
  = ok (PStats [ {| stats := payload |} ]).
Proof.
  intros Hpk Hw Hr.
  destruct (post_stats_allowed _ _ _ _ _ Hw) as [_ E]. rewrite E.
  rewrite get_stats_run. cbn [fst snd db with_db sent].
  unfold listing. rewrite Hr, stat_rows_set.
  rewrite (upsert_row_own (stat_row P payload (now envW))) by assumption.
  reflexivity.
Qed.

Lemma stored_stats_are_read_back_on_scenario :
  fst (get_stats Military "U1" later
         (snd (post_stats Military "U1" (Some (JObj [("attack", JNum 12)]))
                 calm with_stats)))
  = ok (PStats [ {| stats := JObj [("attack", JNum 12)] |} ]).
Proof.
  apply (stored_stats_are_read_back calm later with_stats Military "U1"
           (JObj [("attack", JNum 12)])).
  - repeat constructor. intros [].
  - reflexivity.
  - reflexivity.
Defined.

Lemma upsert_row_length (row : StatRow) (rows : list StatRow) :
  length (upsert_row row rows)
  = if existsb (owned_by (st_user_id row)) rows
    then length rows else S (length rows).
Proof.
  unfold owned_by. induction rows as [|r rest IH]; cbn; [reflexivity|].
  destruct (st_user_id r =? st_user_id row)%string; cbn; [reflexivity|].
  rewrite IH. now destruct (existsb _ rest).
Qed.

(** X11: a successful update keeps no history: the table of its kind has
    one row more when the principal had none, and as many rows as before
    when the principal had one. *)
Theorem update_adds_at_most_one_row
    (env : Env) (w : World) (k : StatKind) (P : string) (payload : Json) :
  decision (fst (post_stats k P (Some payload) env w)) = Allow ->
  length (stat_rows k (db (snd (post_stats k P (Some payload) env w))))
  = if existsb (owned_by P) (stat_rows k (db w))
    then length (stat_rows k (db w))
    else S (length (stat_rows k (db w))).
Proof.
  intros Hw. destruct (post_stats_allowed _ _ _ _ _ Hw) as [_ E]. rewrite E.
  cbn [snd db with_db sent]. rewrite stat_rows_set.
  apply (upsert_row_length (stat_row P payload (now env))).
Qed.

Lemma update_adds_at_most_one_row_on_scenario :
  length (stat_rows Military
            (db (snd (post_stats Military "U1" (Some (JNum 3)) calm with_stats))))
  = 1%nat /\
  length (stat_rows Military
            (db (snd (post_stats Military "U2" (Some (JNum 3)) calm with_stats))))
  = 2%nat.
Proof.
  split.
  - apply (update_adds_at_most_one_row calm with_stats Military "U1" (JNum 3)).
    reflexivity.
  - apply (update_adds_at_most_one_row calm with_stats Military "U2" (JNum 3)).
    reflexivity.
Defined.

Lemma upsert_row_retry (row row' : StatRow) (rows : list StatRow) :
  st_user_id row' = st_user_id row ->
  st_stats row' = st_stats row ->
  map (fun r => (st_user_id r, st_stats r)) (upsert_row row' (upsert_row row rows))
  = map (fun r => (st_user_id r, st_stats r)) (upsert_row row rows).
Proof.
  intros Hu Hs. induction rows as [|r rest IH]; cbn.
  - rewrite Hu, String.eqb_refl. cbn. now rewrite Hu, Hs.
  - destruct (String.eqb_spec (st_user_id r) (st_user_id row)) as [E|N]; cbn.
    + rewrite Hu, String.eqb_refl. cbn. now rewrite Hu, Hs.
    + rewrite Hu.
      destruct (String.eqb_spec (st_user_id r) (st_user_id row));
        [contradiction|]. cbn. now rewrite IH.
Qed.

(** X12: repeating a successful update with the same [stats] changes
    nothing but [created_at]: after the second call the table of that
    kind holds the same keys with the same stats, in the same order, as
    after the first. *)
Theorem repeated_update_changes_only_timestamp
    (env1 env2 : Env) (w : World) (k : StatKind) (P : string) (payload : Json) :
  decision (fst (post_stats k P (Some payload) env1 w)) = Allow ->
  decision (fst (post_stats k P (Some payload) env2
                   (snd (post_stats k P (Some payload) env1 w)))) = Allow ->
  map (fun r => (st_user_id r, st_stats r))
    (stat_rows k (db (snd (post_stats k P (Some payload) env2
                             (snd (post_stats k P (Some payload) env1 w))))))
  = map (fun r => (st_user_id r, st_stats r))
      (stat_rows k (db (snd (post_stats k P (Some payload) env1 w)))).
Proof.
  intros H1 H2.
  destruct (post_stats_allowed _ _ _ _ _ H1) as [_ E1].
  rewrite E1 in H2 |- *. cbn [snd] in *.
  destruct (post_stats_allowed _ _ _ _ _ H2) as [_ E2].
  rewrite E2. cbn [snd db with_db sent]. rewrite !stat_rows_set.
  now apply upsert_row_retry.
Qed.

Lemma repeated_update_changes_only_timestamp_on_scenario :
  map (fun r => (st_user_id r, st_stats r))
    (stat_rows Military
       (db (snd (post_stats Military "U2" (Some (JNum 3)) later
                   (snd (post_stats Military "U2" (Some (JNum 3)) calm
                           with_stats))))))
  = [("U1", JObj [("attack", JNum 10)]); ("U2", JNum 3)].
Proof.
  rewrite (repeated_update_changes_only_timestamp calm later with_stats
             Military "U2" (JNum 3)); reflexivity.
Defined.

(** ** Status codes *)

(** X13: the handlers answer with 200, 400, 403 or 500 and nothing else;
    400 comes only from a stat update, 403 only from the two nested
    routes, and a 200 always carries data or, for [/health], the status
    object, never an error body. *)
Theorem status_codes (req : Request) (env : Env) (w : World) :
  (status (fst (handle req env w)) = 200 \/
   status (fst (handle req env w)) = 400 \/
   status (fst (handle req env w)) = 403 \/
   status (fst (handle req env w)) = 500) /\
  (status (fst (handle req env w)) = 400 -> is_update req = true) /\
  (status (fst (handle req env w)) = 403 -> is_nested req = true) /\
  (status (fst (handle req env w)) = 200 ->
   body (fst (handle req env w)) = StatusOK \/
   exists p, body (fst (handle req env w)) = DataBody (Some p)).
Proof.
  assert (Hlist : forall t p,
             (status (listing env t p) = 200 \/ status (listing env t p) = 400 \/
              status (listing env t p) = 403 \/ status (listing env t p) = 500) /\
             status (listing env t p) <> 400 /\
             status (listing env t p) <> 403 /\
             (status (listing env t p) = 200 ->
              exists q, body (listing env t p) = DataBody (Some q))).
  { intros t p. unfold listing. destruct (faults env t); cbn.
    - repeat split; try lia; try discriminate.
    - repeat split; try lia; eauto. }
  assert (Huse : forall t p (b c : bool),
             (status (listing env t p) = 200 \/ status (listing env t p) = 400 \/
              status (listing env t p) = 403 \/ status (listing env t p) = 500) /\
             (status (listing env t p) = 400 -> b = true) /\
             (status (listing env t p) = 403 -> c = true) /\
             (status (listing env t p) = 200 ->
              body (listing env t p) = StatusOK \/
              exists q, body (listing env t p) = DataBody (Some q))).
  { intros t p b c. destruct (Hlist t p) as (H1 & H2 & H3 & H4).
    repeat split; try tauto; try (intros H; right; auto). }
  assert (Herr : forall msg (b c : bool),
             (status (storage_error msg) = 200 \/ status (storage_error msg) = 400 \/
              status (storage_error msg) = 403 \/ status (storage_error msg) = 500) /\
             (status (storage_error msg) = 400 -> b = true) /\
             (status (storage_error msg) = 403 -> c = true) /\
             (status (storage_error msg) = 200 ->
              body (storage_error msg) = StatusOK \/
              exists q, body (storage_error msg) = DataBody (Some q))).
  { intros msg b c. cbn. repeat split; try lia; discriminate. }
  destruct req as [ | u | u | u | k u | k u s | u | u a | u m ]; cbn [handle].
  - cbn. repeat split; try lia; try discriminate. intros _. now left.
  - rewrite get_user_run. cbn [fst].
    destruct (faults env Users); [apply Herr|].
    destruct (filter _ (users (db w))) as [|r [|r' rest]]; try apply Herr.
    cbn. repeat split; try lia; try discriminate. intros _. right. eauto.
  - rewrite get_player_info_run. apply Huse.
  - rewrite get_player_resources_run. apply Huse.
  - rewrite get_stats_run. apply Huse.
  - destruct (truthy s) eqn:Ht.
    + destruct (truthy_some _ Ht) as [payload ->].
      rewrite post_stats_truthy by assumption.
      destruct (faults env (stat_table k)); [apply Herr|].
      cbn. repeat split; try lia; try discriminate. intros _. right. eauto.
    + rewrite post_stats_falsy by assumption.
      cbn. repeat split; try lia; discriminate.
  - rewrite get_alliances_run. apply Huse.
  - rewrite get_alliance_members_run.
    destruct (is_manager env (db w) u a); [apply Huse|].
    cbn. repeat split; try lia; discriminate.
  - rewrite get_battle_events_run.
    destruct (faults env AllianceMembers); [apply Herr|].
    destruct (filter _ (alliance_members (db w))) as [|r [|r' rest]];
      [apply Herr | | apply Herr].
    destruct (is_manager env (db w) u (am_alliance_id r)); [apply Huse|].
    cbn. repeat split; try lia; discriminate.
Qed.

Lemma status_codes_on_scenario :
  is_nested (GetAllianceMembers "U2" "A1") = true.
Proof.
  apply (status_codes (GetAllianceMembers "U2" "A1") calm scenario).
  reflexivity.
Defined.
